(** * fusedav: the leveldb-backed file cache (src/ldb-filecache.c)

    A shallow embedding of the file cache of fusedav.  The C functions are
    written as computations over an explicit [world]: the leveldb store, the
    stat cache, the local file system with its descriptor table, the heap
    holding the session structures, the scripted answers of the WebDAV
    server, and the trace of the external calls made so far.

    A computation that reaches undefined behaviour in C (a NULL or
    indeterminate pointer is used, an [assert] fails) has no result.
    [log_print] has no effect on the state and is left out. *)

From Stdlib Require Import ZArith String List Bool Lia.
From Stdlib Require Import Init.Byte Strings.Byte.
From stdpp Require Import base option gmap strings list list_numbers.

Local Open Scope string_scope.
Local Open Scope list_scope.
Local Open Scope Z_scope.

(** ** Constants of the system and library headers *)

Module Consts.
(** <limits.h> *)
Definition PATH_MAX : nat := 4096.

(** <fcntl.h> (Linux) *)
Definition O_RDONLY : Z := 0.
Definition O_WRONLY : Z := 1.
Definition O_RDWR : Z := 2.
Definition O_ACCMODE : Z := 3.

(** <sys/stat.h> *)
Definition S_IFREG : Z := 32768. (* 0100000 *)
Definition MODE_0660 : Z := 432. (* 0660 *)

(** <errno.h> *)
Definition ENOENT : Z := 2.
Definition EIO : Z := 5.
Definition EBADF : Z := 9.
Definition EEXIST : Z := 17.
Definition EINVAL : Z := 22.

(** <ne_session.h> *)
Definition NE_OK : Z := 0.
Definition NE_ERROR : Z := 1.
Definition NE_CONNECT : Z := 5.
Definition NE_RETRY : Z := 8.

(** ldb-filecache.c, lines 41 and 55 *)
Definition REFRESH_INTERVAL : Z := 3.
Definition ETAG_MAX : nat := 256.
End Consts.
Import Consts.

#[global] Instance byte_eq_decision : EqDecision byte := Byte.byte_eq_dec.

(** ** Data model *)

(** [struct ldb_filecache_sdata]: the session data of one open file. *)
Record ldb_filecache_sdata := mk_sdata {
  sd_fd : Z;
  sd_filename : string; (* only used for new replacement files *)
  sd_readable : bool;
  sd_writable : bool;
  sd_modified : bool
}.

(** [struct ldb_filecache_pdata]: the persistent data stored in leveldb. *)
Record ldb_filecache_pdata := mk_pdata {
  pd_filename : string;
  pd_etag : string;
  pd_last_server_update : Z
}.

(** The fields of [struct stat_cache_value] that the file cache fills in. *)
Record stat_cache_value := mk_stat {
  st_mode : Z;
  st_nlink : Z;
  st_size : Z;
  st_atime : Z;
  st_mtime : Z;
  st_ctime : Z;
  st_blksize : Z;
  st_blocks : Z;
  st_uid : Z;
  st_gid : Z;
  prepopulated : bool
}.

(** The fields of [struct fuse_file_info] that the file cache uses; [fh]
    holds the address of the session data, 0 being NULL. *)
Record fuse_file_info := mk_info {
  flags : Z;
  fh : Z
}.

(** ** The world outside the file cache *)

(** An open file description: the inode it refers to, the file offset and
    the access mode it was opened with. *)
Record open_file := mk_ofd {
  of_ino : Z;
  of_pos : nat;
  of_rd : bool;
  of_wr : bool
}.

(** The local file system: directory entries name inodes, inodes hold
    bytes, descriptors refer to inodes.  Removing a directory entry does
    not touch the inode, so a descriptor opened earlier stays usable. *)
Record filesys := mk_fs {
  dir : gmap string Z;
  inodes : gmap Z (list byte);
  fdtab : gmap Z open_file
}.

(** One answer of the server to [ne_begin_request]: the result of the
    call, the status code, the ETag header, the body, the number of body
    bytes that arrive before the transfer breaks (at least the length of
    the body when it does not), and the result of [ne_end_request].
    Every answer carries an ETag header; line 149 copies it without
    testing for NULL. *)
Record response := mk_resp {
  r_begin : Z;
  r_code : Z;
  r_etag : string;
  r_body : list byte;
  r_delivered : nat;
  r_end : Z
}.

(** What the surroundings decide: the clock, the user, and which of the
    fallible services work. *)
Record environment := mk_env {
  clock : Z;                      (* time(NULL) *)
  uid : Z;                        (* getuid() *)
  gid : Z;                        (* getgid() *)
  session_ok : bool;              (* session_get(1) returns a session *)
  malloc_ok : bool;               (* malloc of the session data succeeds *)
  request_ok : bool;              (* ne_request_create returns a request *)
  put_ok : bool;                  (* ne_put succeeds *)
  db_get_err : option string;     (* errptr set by leveldb_get *)
  db_put_err : option string      (* errptr set by leveldb_put *)
}.

(** The external calls, in the order they are made. *)
Inductive event :=
| EvDbGet (key : string)
| EvDbPut (key : string) (v : ldb_filecache_pdata)
| EvOpen (name : string) (fd : Z)
| EvMkstemp (name : string) (fd : Z)
| EvUnlink (name : string)
| EvClose (fd : Z)
| EvLseek (fd : Z)
| EvPwrite (fd : Z) (offset : Z) (data : list byte)
| EvHttpGet (path : string) (if_none_match : option string)
| EvReadBody (fd : Z) (complete : bool)
| EvHttpPut (path : string) (body : list byte)
| EvStatSet (path : string) (v : stat_cache_value)
| EvFree (addr : Z).

Record world := mk_world {
  env : environment;
  fs : filesys;
  tmp_supply : list string;       (* the suffixes mkstemp will draw *)
  responses : list response;      (* the answers the server will give *)
  db : gmap string ldb_filecache_pdata;
  statcache : gmap string stat_cache_value;
  heap : gmap Z ldb_filecache_sdata;
  errno : Z;
  trace : list event
}.

Definition set_fs (f : filesys) (w : world) : world :=
  mk_world (env w) f (tmp_supply w) (responses w) (db w) (statcache w)
           (heap w) (errno w) (trace w).
Definition set_tmp_supply (l : list string) (w : world) : world :=
  mk_world (env w) (fs w) l (responses w) (db w) (statcache w)
           (heap w) (errno w) (trace w).
Definition set_responses (l : list response) (w : world) : world :=
  mk_world (env w) (fs w) (tmp_supply w) l (db w) (statcache w)
           (heap w) (errno w) (trace w).
Definition set_db (d : gmap string ldb_filecache_pdata) (w : world) : world :=
  mk_world (env w) (fs w) (tmp_supply w) (responses w) d (statcache w)
           (heap w) (errno w) (trace w).
Definition set_statcache (s : gmap string stat_cache_value) (w : world) : world :=
  mk_world (env w) (fs w) (tmp_supply w) (responses w) (db w) s
           (heap w) (errno w) (trace w).
Definition set_heap (h : gmap Z ldb_filecache_sdata) (w : world) : world :=
  mk_world (env w) (fs w) (tmp_supply w) (responses w) (db w) (statcache w)
           h (errno w) (trace w).
Definition set_errno (e : Z) (w : world) : world :=
  mk_world (env w) (fs w) (tmp_supply w) (responses w) (db w) (statcache w)
           (heap w) e (trace w).
Definition set_trace (t : list event) (w : world) : world :=
  mk_world (env w) (fs w) (tmp_supply w) (responses w) (db w) (statcache w)
           (heap w) (errno w) t.

(** ** Computations *)

(** A computation reads and changes the world; [None] is undefined
    behaviour or an abort. *)
Definition M (A : Type) : Type := world -> option (A * world).

#[global] Instance M_ret : MRet M := fun A a w => Some (a, w).
#[global] Instance M_bind : MBind M := fun A B k m w =>
  match m w with
  | Some (a, w') => k a w'
  | None => None
  end.

Definition ret {A} (a : A) : M A := mret a.
Definition undefined {A} : M A := fun _ => None.
Definition gets {A} (f : world -> A) : M A := fun w => Some (f w, w).
Definition modify (f : world -> world) : M unit := fun w => Some (tt, f w).
Definition emit (e : event) : M unit :=
  modify (fun w => set_trace (trace w ++ [e]) w).

(** ** System and library calls *)

(** The least key from [lo] upwards that [m] does not hold: the number of
    a new descriptor, inode or heap block. *)
Definition lowest_free {A} (lo : Z) (m : gmap Z A) : Z :=
  default (lo + Z.of_nat (size m))
    (List.find (fun k => bool_decide (m !! k = None))
               (seqZ lo (Z.of_nat (size m) + 1))).

(** [time(NULL)] *)
Definition sys_time : M Z := gets (fun w => clock (env w)).

(** The difference of two values of [time_t], a signed integer of 64
    bits: the result of the subtraction wraps around. *)
Definition time_t_sub (a b : Z) : Z :=
  (a - b + 2 ^ 63) mod 2 ^ 64 - 2 ^ 63.

(** Modelled from the spec: [session_get] of fusedav.c, which is not
    among the sources; obtaining a session of the remote store may fail,
    and the result here is whether a session was returned. *)
Definition session_get : M bool := gets (fun w => session_ok (env w)).

(** [open(name, O_APPEND)]: the access mode bits are O_RDONLY, so the
    descriptor is read-only.  -1 with ENOENT if nothing has that name. *)
Definition sys_open (name : string) : M Z :=
  f ← gets fs;
  match dir f !! name with
  | None =>
      modify (set_errno ENOENT) ;;
      emit (EvOpen name (-1)) ;;
      ret (-1)
  | Some ino =>
      let fd := lowest_free 0 (fdtab f) in
      modify (set_fs (mk_fs (dir f) (inodes f)
                            (<[fd := mk_ofd ino 0 true false]> (fdtab f)))) ;;
      emit (EvOpen name fd) ;;
      ret fd
  end.

(** Whether [s] ends in the six X of a mkstemp template. *)
Definition is_template (s : string) : bool :=
  bool_decide (substring (String.length s - 6) 6 s = "XXXXXX").

(** The attempts of one [mkstemp] call on the names [prefix +:+ sfx] for
    the suffixes of the [supply], in order: a name that is taken is
    passed over and the next one is tried.  The result tells whether a
    free name was found, gives the last name tried ([last] when none was)
    and the suffixes that are left. *)
Fixpoint mkstemp_attempts (prefix : string) (d : gmap string Z)
    (supply : list string) (last : string) : bool * string * list string :=
  match supply with
  | [] => (false, last, [])
  | sfx :: rest =>
      let name := prefix +:+ sfx in
      match d !! name with
      | None => (true, name, rest)
      | Some _ => mkstemp_attempts prefix d rest name
      end
  end.

(** [mkstemp(template)]: the result and the contents of the template
    buffer afterwards.  A template that does not end in XXXXXX is
    refused with EINVAL and left as it is.  Otherwise the last six
    characters are replaced by a generated suffix, again after each name
    that is taken; the first name that is free is created empty and
    opened read-write.  When the names run out the call fails with
    EEXIST and the buffer holds the last name tried.  All names live in
    one flat name space, so that no attempt fails for another reason. *)
Definition mkstemp (template : string) : M (Z * string) :=
  if negb (is_template template) then
    modify (set_errno EINVAL) ;;
    emit (EvMkstemp template (-1)) ;;
    ret (-1, template)
  else
    supply ← gets tmp_supply;
    f ← gets fs;
    let prefix := substring 0 (String.length template - 6) template in
    let '(found, name, rest) :=
      mkstemp_attempts prefix (dir f) supply template in
    modify (set_tmp_supply rest) ;;
    if found then
      let ino := lowest_free 1 (inodes f) in
      let fd := lowest_free 0 (fdtab f) in
      modify (set_fs (mk_fs (<[name := ino]> (dir f))
                            (<[ino := []]> (inodes f))
                            (<[fd := mk_ofd ino 0 true true]> (fdtab f)))) ;;
      emit (EvMkstemp name fd) ;;
      ret (fd, name)
    else
      modify (set_errno EEXIST) ;;
      emit (EvMkstemp name (-1)) ;;
      ret (-1, name).

(** [unlink(name)]: removes the directory entry only. *)
Definition sys_unlink (name : string) : M Z :=
  f ← gets fs;
  emit (EvUnlink name) ;;
  match dir f !! name with
  | None => modify (set_errno ENOENT) ;; ret (-1)
  | Some _ =>
      modify (set_fs (mk_fs (delete name (dir f)) (inodes f) (fdtab f))) ;;
      ret 0
  end.

(** [close(fd)] *)
Definition sys_close (fd : Z) : M Z :=
  f ← gets fs;
  emit (EvClose fd) ;;
  match fdtab f !! fd with
  | None => modify (set_errno EBADF) ;; ret (-1)
  | Some _ =>
      modify (set_fs (mk_fs (dir f) (inodes f) (delete fd (fdtab f)))) ;;
      ret 0
  end.

(** The bytes of a file after [data] is written at offset [off]; a gap
    between the old end and [off] reads as zero bytes.  A write of no
    bytes leaves the file as it is, also beyond its end. *)
Definition write_at (old : list byte) (off : nat) (data : list byte) : list byte :=
  match data with
  | [] => old
  | _ => take off old ++ replicate (off - length old) x00 ++ data
           ++ drop (off + length data) old
  end.

(** [pwrite(fd, buf, size, offset)]: the file offset is not changed.
    The offset is examined before the descriptor: a negative one is
    refused with EINVAL whatever the descriptor. *)
Definition sys_pwrite (fd : Z) (buf : list byte) (size : nat) (offset : Z) : M Z :=
  f ← gets fs;
  let data := take size buf in
  emit (EvPwrite fd offset data) ;;
  if offset <? 0 then modify (set_errno EINVAL) ;; ret (-1)
  else
    match fdtab f !! fd with
    | None => modify (set_errno EBADF) ;; ret (-1)
    | Some o =>
        if negb (of_wr o) then modify (set_errno EBADF) ;; ret (-1)
        else
          let old := default [] (inodes f !! of_ino o) in
          modify (set_fs (mk_fs (dir f)
                    (<[of_ino o := write_at old (Z.to_nat offset) data]> (inodes f))
                    (fdtab f))) ;;
          ret (Z.of_nat (length data))
    end.

(** [lseek(fd, 0, SEEK_SET)] and [lseek(fd, 0, SEEK_END)]: the new offset,
    or -1 on a descriptor that is not open. *)
Definition sys_lseek (fd : Z) (to_end : bool) : M Z :=
  f ← gets fs;
  emit (EvLseek fd) ;;
  match fdtab f !! fd with
  | None => modify (set_errno EBADF) ;; ret (-1)
  | Some o =>
      let pos := if to_end then length (default [] (inodes f !! of_ino o))
                 else 0%nat in
      modify (set_fs (mk_fs (dir f) (inodes f)
                (<[fd := mk_ofd (of_ino o) pos (of_rd o) (of_wr o)]> (fdtab f)))) ;;
      ret (Z.of_nat pos)
  end.

(** [write(fd, data, n)] as [ne_read_response_to_fd] uses it: the bytes go
    to the file offset, which moves on.  The result tells whether they
    were written. *)
Definition sys_write (fd : Z) (data : list byte) : M bool :=
  f ← gets fs;
  match fdtab f !! fd with
  | None => modify (set_errno EBADF);; ret false
  | Some o =>
      if negb (of_wr o) then modify (set_errno EBADF);; ret false
      else
        let old := default [] (inodes f !! of_ino o) in
        modify (set_fs (mk_fs (dir f)
                  (<[of_ino o := write_at old (of_pos o) data]> (inodes f))
                  (<[fd := mk_ofd (of_ino o) (of_pos o + length data)
                                  (of_rd o) (of_wr o)]> (fdtab f))));;
        ret true
  end.

(** [ne_read_response_to_fd(req, fd)]: the part of the body that arrives
    is written to [fd]; NE_OK only if the whole body arrived and was
    written. *)
Definition ne_read_response_to_fd (r : response) (fd : Z) : M Z :=
  let arrived := take (r_delivered r) (r_body r) in
  written ← (if bool_decide (arrived = []) then ret true
             else sys_write fd arrived);
  let complete := written && bool_decide (arrived = r_body r) in
  emit (EvReadBody fd complete);;
  ret (if complete then NE_OK else NE_ERROR).

(** [ne_put(session, path, fd)]: the whole file behind [fd] is the body of
    a PUT request; nothing is sent when the descriptor cannot be
    examined. *)
Definition ne_put (path : string) (fd : Z) : M Z :=
  f ← gets fs;
  e ← gets env;
  match fdtab f !! fd with
  | None => modify (set_errno EBADF);; ret NE_ERROR
  | Some o =>
      emit (EvHttpPut path (default [] (inodes f !! of_ino o)));;
      ret (if put_ok e then NE_OK else NE_ERROR)
  end.

(** [leveldb_get]: the value found, or NULL, and the error string, or
    NULL.  A key that is not there is no error. *)
Definition leveldb_get (key : string)
  : M (option ldb_filecache_pdata * option string) :=
  emit (EvDbGet key);;
  e ← gets env;
  d ← gets db;
  match db_get_err e with
  | Some msg => ret (None, Some msg)
  | None => ret (d !! key, None)
  end.

(** [leveldb_put]: the error string, or NULL. *)
Definition leveldb_put (key : string) (v : ldb_filecache_pdata)
  : M (option string) :=
  emit (EvDbPut key v);;
  e ← gets env;
  match db_put_err e with
  | Some msg => ret (Some msg)
  | None => modify (fun w => set_db (<[key := v]> (db w)) w);; ret None
  end.

(** Modelled from the spec: [stat_cache_value_set] of statcache.c, which
    is not among the sources; the attribute cache is write-only from the
    file cache and keeps the attributes last set for a path. *)
Definition stat_cache_value_set (path : string) (v : stat_cache_value) : M unit :=
  emit (EvStatSet path v);;
  modify (fun w => set_statcache (<[path := v]> (statcache w)) w).

(** [malloc] of a session structure followed by the [memset] to zero:
    the address of the new block, or 0. *)
Definition zero_sdata : ldb_filecache_sdata := mk_sdata 0 "" false false false.

Definition malloc_sdata : M Z :=
  e ← gets env;
  h ← gets heap;
  if malloc_ok e then
    let a := lowest_free 1 h in
    modify (set_heap (<[a := zero_sdata]> h));;
    ret a
  else ret 0.

Definition free_sdata (a : Z) : M unit :=
  emit (EvFree a);;
  modify (fun w => set_heap (delete a (heap w)) w).

(** Reading and writing through a pointer to a session structure; a
    pointer that is NULL or dangling has no defined behaviour. *)
Definition load_sdata (a : Z) : M ldb_filecache_sdata :=
  h ← gets heap;
  match h !! a with
  | Some sd => ret sd
  | None => undefined
  end.

Definition store_sdata (a : Z) (f : ldb_filecache_sdata -> ldb_filecache_sdata)
  : M unit :=
  sd ← load_sdata a;
  modify (fun w => set_heap (<[a := f sd]> (heap w)) w).

Definition set_sd_fd (v : Z) (s : ldb_filecache_sdata) :=
  mk_sdata v (sd_filename s) (sd_readable s) (sd_writable s) (sd_modified s).
Definition set_sd_filename (v : string) (s : ldb_filecache_sdata) :=
  mk_sdata (sd_fd s) v (sd_readable s) (sd_writable s) (sd_modified s).
Definition set_sd_readable (v : bool) (s : ldb_filecache_sdata) :=
  mk_sdata (sd_fd s) (sd_filename s) v (sd_writable s) (sd_modified s).
Definition set_sd_writable (v : bool) (s : ldb_filecache_sdata) :=
  mk_sdata (sd_fd s) (sd_filename s) (sd_readable s) v (sd_modified s).
Definition set_sd_modified (v : bool) (s : ldb_filecache_sdata) :=
  mk_sdata (sd_fd s) (sd_filename s) (sd_readable s) (sd_writable s) v.

Definition set_pd_filename (v : string) (p : ldb_filecache_pdata) :=
  mk_pdata v (pd_etag p) (pd_last_server_update p).
Definition set_pd_last_server_update (v : Z) (p : ldb_filecache_pdata) :=
  mk_pdata (pd_filename p) (pd_etag p) v.

(** ** The file cache *)

(** [path2key] (line 522) *)
Definition path2key (path : string) : string := "fc:" +:+ path.

(** [new_cache_file] (line 69): the result, the contents of
    [cache_file_path] and the value stored in [*fd]. *)
Definition new_cache_file (cache_path : string) : M (Z * string * Z) :=
  let pattern :=
    substring 0 (PATH_MAX - 1) (cache_path +:+ "/files/fusedav-cache-XXXXXX") in
  '(fd, name) ← mkstemp pattern;
  if fd <? 0 then ret (-1, name, fd)
  else ret (0, name, fd).

(** [ldb_filecache_pdata_get] (line 276): NULL on an error of the store
    and NULL on a miss. *)
Definition ldb_filecache_pdata_get (path : string)
  : M (option ldb_filecache_pdata) :=
  let key := path2key path in
  '(pdata, errptr) ← leveldb_get key;
  match errptr with
  | Some _ => ret None
  | None =>
      match pdata with
      | None => ret None
      | Some pd => ret (Some pd)
      end
  end.

(** [ldb_filecache_pdata_set] (line 339) *)
Definition ldb_filecache_pdata_set (path : string)
    (pdata : option ldb_filecache_pdata) : M Z :=
  match pdata with
  | None => ret (-1)
  | Some pd =>
      let key := path2key path in
      errptr ← leveldb_put key pd;
      match errptr with
      | Some _ => ret (-1)
      | None => ret 0
      end
  end.

(** The request loop of [ldb_get_fresh_fd] (lines 115-174), one answer of
    the server per round; the result is the value of [ret_fd] at
    [finish].  When the server has no answer left, [ne_begin_request]
    fails. *)
Fixpoint request_loop (answers : list response) (cache_path path : string)
    (pdata : option ldb_filecache_pdata) : M Z :=
  match answers with
  | [] =>
      emit (EvHttpGet path (pd_etag <$> pdata));;
      ret (-1)
  | r :: rest =>
      modify (set_responses rest);;
      emit (EvHttpGet path (pd_etag <$> pdata));;
      if negb (r_begin r =? NE_OK) then ret (-1)
      else if r_code r =? 304 then
        match pdata with
        | None => undefined (* pdata->last_server_update with pdata NULL *)
        | Some pd =>
            now ← sys_time;
            let pd := set_pd_last_server_update now pd in
            _ ← ldb_filecache_pdata_set path (Some pd);
            sys_open (pd_filename pd)
        end
      else if r_code r =? 200 then
        let '(pd, old_filename) :=
          match pdata with
          | None =>
              (mk_pdata "" (substring 0 ETAG_MAX (r_etag r)) 0, None)
          | Some pd => (pd, Some (pd_filename pd))
          end in
        '(_, name, ret_fd) ← new_cache_file cache_path;
        let pd := set_pd_filename name pd in
        _ ← ne_read_response_to_fd r ret_fd;
        now ← sys_time;
        let pd := set_pd_last_server_update now pd in
        _ ← ldb_filecache_pdata_set path (Some pd);
        match old_filename with
        | Some old => _ ← sys_unlink old; ret ret_fd
        | None => ret ret_fd
        end
      else if r_end r =? NE_RETRY then request_loop rest cache_path path pdata
      else ret (-1)
  end.

(** [ldb_get_fresh_fd] (line 82).  The age of the entry is a difference
    of two [time_t] (line 96). *)
Definition ldb_get_fresh_fd (cache_path path : string) : M Z :=
  pdata ← ldb_filecache_pdata_get path;
  cached_file_is_fresh ←
    match pdata with
    | None => ret false
    | Some pd =>
        now ← sys_time;
        ret (time_t_sub now (pd_last_server_update pd) <=? REFRESH_INTERVAL)
    end;
  match cached_file_is_fresh, pdata with
  | true, Some pd => sys_open (pd_filename pd)
  | _, _ =>
      e ← gets env;
      if negb (request_ok e) then ret (-1)
      else
        answers ← gets responses;
        request_loop answers cache_path path pdata
  end.

(** The label [fail] of [ldb_filecache_open] (lines 241-249). *)
Definition open_fail (r : Z) (sdata : Z) (info : fuse_file_info)
  : M (Z * fuse_file_info) :=
  (if negb (sdata =? 0) then free_sdata sdata else ret tt);;
  ret (r, mk_info (flags info) 0).

(** The attributes published for a file of [size] bytes (lines 212-222
    and 477-487). *)
Definition synthetic_stat (size now : Z) (e : environment) : stat_cache_value :=
  mk_stat (Z.lor MODE_0660 S_IFREG) 1 size now now now 0 8 (uid e) (gid e) false.

(** The conditions of lines 231 and 232 on the flags of the open. *)
Definition readable_requested (flags : Z) : bool :=
  negb (Z.land flags O_RDONLY =? 0) || negb (Z.land flags O_RDWR =? 0).
Definition writable_requested (flags : Z) : bool :=
  negb (Z.land flags O_WRONLY =? 0) || negb (Z.land flags O_RDWR =? 0).

(** Lines 205-229 of [ldb_filecache_open]: the descriptor is obtained and
    stored in the session data at [sdata]; the result is false when
    control leaves by [goto fail] (line 209). *)
Definition open_obtain_fd (cache_path path : string) (replace : bool)
    (sdata : Z) : M bool :=
  if replace then
    store_sdata sdata (set_sd_modified true);;
    '(r, name, fd) ← new_cache_file cache_path;
    store_sdata sdata (set_sd_filename name);;
    store_sdata sdata (set_sd_fd fd);;
    if r <? 0 then ret false
    else
      now ← sys_time;
      e ← gets env;
      stat_cache_value_set path (synthetic_stat 0 now e);;
      ret true
  else
    fd ← ldb_get_fresh_fd cache_path path;
    store_sdata sdata (set_sd_fd fd);;
    ret true.

(** Lines 231-249 of [ldb_filecache_open]: the access flags are set and
    the session data is handed over, or given up. *)
Definition open_install (info : fuse_file_info) (sdata : Z)
  : M (Z * fuse_file_info) :=
  let flags := flags info in
  (if readable_requested flags
   then store_sdata sdata (set_sd_readable true) else ret tt);;
  (if writable_requested flags
   then store_sdata sdata (set_sd_writable true) else ret tt);;
  sd ← load_sdata sdata;
  if sd_fd sd >? 0 then ret (0, mk_info flags sdata)
  else open_fail (-1) sdata info.

(** [ldb_filecache_open] (line 184): the result and the file info
    afterwards. *)
Definition ldb_filecache_open (cache_path path : string)
    (info : fuse_file_info) (replace : bool) : M (Z * fuse_file_info) :=
  have_session ← session_get;
  if negb have_session then
    (* ret = -EIO; goto fail: the test of sdata reads a pointer that was
       never assigned *)
    undefined
  else
    sdata ← malloc_sdata;
    if sdata =? 0 then open_fail (-1) sdata info
    else
      acquired ← open_obtain_fd cache_path path replace sdata;
      if negb acquired then open_fail (-1) sdata info
      else open_install info sdata.

(** [ldb_filecache_write] (line 311) *)
Definition ldb_filecache_write (info : fuse_file_info) (buf : list byte)
    (size : nat) (offset : Z) : M Z :=
  let sdata := fh info in
  sd ← load_sdata sdata;
  if negb (sd_writable sd) then
    modify (set_errno EBADF);;
    ret 0
  else
    r ← sys_pwrite (sd_fd sd) buf size offset;
    if r <? 0 then
      e ← gets errno;
      ret (- e)
    else
      store_sdata sdata (set_sd_modified true);;
      ret r.

(** [ldb_filecache_close] (line 528) *)
Definition ldb_filecache_close (sdata : Z) : M Z :=
  sd ← load_sdata sdata;
  (if sd_fd sd >=? 0 then _ ← sys_close (sd_fd sd); ret tt else ret tt);;
  ret 0.

(** [ldb_filecache_sync] (line 410) *)
Definition ldb_filecache_sync (path : string) (info : fuse_file_info) : M Z :=
  let sdata := fh info in
  sd ← load_sdata sdata; (* assert(sdata) *)
  if negb (sd_writable sd) then ret 0
  else if negb (sd_modified sd) then ret 0
  else
    pos ← sys_lseek (sd_fd sd) false;
    if pos =? -1 then ret (-1)
    else
      have_session ← session_get;
      if negb have_session then
        modify (set_errno EIO);;
        ret (-1)
      else
        r ← ne_put path (sd_fd sd);
        if negb (r =? 0) then
          modify (set_errno ENOENT);;
          ret (-1)
        else
          size ← sys_lseek (sd_fd sd) true;
          now ← sys_time;
          e ← gets env;
          stat_cache_value_set path (synthetic_stat size now e);;
          ret 0.

(** [ldb_filecache_release] (line 384) *)
Definition ldb_filecache_release (path : string) (info : fuse_file_info) : M Z :=
  let sdata := fh info in
  _ ← load_sdata sdata; (* assert(sdata) *)
  r ← ldb_filecache_sync path info;
  if r <? 0 then ret r
  else
    _ ← ldb_filecache_close sdata;
    ret 0.

(** ** Reading, truncating, deleting *)

(** The calls of this part leave no mark in the trace, which keeps the
    calls of open, write, sync and release. *)

(** [pread(fd, buf, size, offset)]: the result and the bytes placed in
    [buf]; fewer than [size] at the end of the file, none beyond it.  The
    file offset is not changed.  The offset is examined before the
    descriptor: a negative one is refused with EINVAL whatever the
    descriptor. *)
Definition sys_pread (fd : Z) (size : nat) (offset : Z) : M (Z * list byte) :=
  f ← gets fs;
  if offset <? 0 then modify (set_errno EINVAL);; ret (-1, [])
  else
    match fdtab f !! fd with
    | None => modify (set_errno EBADF);; ret (-1, [])
    | Some o =>
        if negb (of_rd o) then modify (set_errno EBADF);; ret (-1, [])
        else
          let data :=
            take size (drop (Z.to_nat offset) (default [] (inodes f !! of_ino o))) in
          ret (Z.of_nat (length data), data)
    end.


(** [leveldb_delete]: the error string, or NULL; [fault] is the error the
    store meets in this call, if any.  Deleting a key that is not there
    is no error. *)
Definition leveldb_delete (fault : option string) (key : string)
  : M (option string) :=
  match fault with
  | Some msg => ret (Some msg)
  | None => modify (fun w => set_db (delete key (db w)) w);; ret None
  end.

(** [ldb_filecache_read] (line 252): the result and the bytes placed in
    [buf]. *)
Definition ldb_filecache_read (info : fuse_file_info) (size : nat)
    (offset : Z) : M (Z * list byte) :=
  let sdata := fh info in
  sd ← load_sdata sdata;
  '(r, data) ← sys_pread (sd_fd sd) size offset;
  if r <? 0 then
    e ← gets errno;
    ret (- e, data)
  else ret (r, data).


(** [ldb_filecache_delete] (line 500), with the error that
    [leveldb_delete] meets. *)
Definition ldb_filecache_delete (fault : option string) (path : string) : M Z :=
  let key := path2key path in
  errptr ← leveldb_delete fault key;
  match errptr with
  | Some _ => ret (-1)
  | None => ret 0
  end.

(** ** Notions used in the statements below *)

(** An answer of the server that gives the resolver nothing to work
    with: the request fails, or the status is neither 200 nor 304. *)
Definition unusable_answer (r : response) : Prop :=
  r_begin r <> NE_OK \/ (r_code r <> 200 /\ r_code r <> 304).

(** No descriptor is negative and every descriptor refers to a file that
    exists. *)
Definition fs_wf (f : filesys) : Prop :=
  forall fd o, fdtab f !! fd = Some o ->
    0 <= fd /\ is_Some (inodes f !! of_ino o).

(** Every descriptor of [f] is a descriptor of [f'] for the same file,
    at the same offset, and the file has the same contents. *)
Definition keeps_open_files (f f' : filesys) : Prop :=
  forall fd o, fdtab f !! fd = Some o ->
    fdtab f' !! fd = Some o /\
    inodes f' !! of_ino o = inodes f !! of_ino o.

(** ** Properties as the specification words them *)

(** Sync idempotence (P5): after a successful sync, a second sync with
    nothing in between succeeds and makes no upload. *)
Definition sync_idempotent (path : string) (info : fuse_file_info) (w : world)
  : Prop :=
  forall w1,
    ldb_filecache_sync path info w = Some (0, w1) ->
    exists w2,
      ldb_filecache_sync path info w1 = Some (0, w2) /\
      forall body, EvHttpPut path body ∉ drop (length (trace w1)) (trace w2).

(** Replace-open (§4.2): the session data handed out by a replace-open
    is not yet marked modified. *)
Definition replace_open_unmodified (cache_path path : string)
    (info : fuse_file_info) (w : world) : Prop :=
  forall r info' w' sd,
    ldb_filecache_open cache_path path info true w = Some ((r, info'), w') ->
    heap w' !! fh info' = Some sd ->
    sd_modified sd = false.

(** Store failures (§7): a get that fails with an error of the store
    gives the caller a result other than the one of a miss. *)
Definition get_failure_distinct_from_miss (path : string)
    (w_err w_miss : world) : Prop :=
  is_Some (db_get_err (env w_err)) ->
  db_get_err (env w_miss) = None ->
  db w_miss !! path2key path = None ->
  fst <$> ldb_filecache_pdata_get path w_err
    <> fst <$> ldb_filecache_pdata_get path w_miss.


(** ** Sample worlds *)

Module Sample.
(** The three standard descriptors, on the terminal (inode 0). *)
Definition stdio : gmap Z open_file :=
  list_to_map [(0, mk_ofd 0 0 true false); (1, mk_ofd 0 0 false true);
               (2, mk_ofd 0 0 false true)].

Definition env_ok : environment :=
  mk_env 100 1000 1000 true true true true None None.
Definition env_put_fails : environment :=
  mk_env 100 1000 1000 true true true false None None.
Definition env_get_fails : environment :=
  mk_env 100 1000 1000 true true true true (Some "IO error: lock") None.

Definition cache_path : string := "/cache".
Definition path : string := "/a.txt".
Definition old_name : string := "/cache/files/fusedav-cache-old000".
Definition new_name : string := "/cache/files/fusedav-cache-new111".
Definition hello : list byte := list_byte_of_string "hello".

(** Nothing cached, nothing open but the standard descriptors. *)
Definition w_empty : world :=
  mk_world env_ok (mk_fs ∅ ∅ stdio) ["new111"; "new222"] [] ∅ ∅ ∅ 0 [].

(** As [w_empty] but descriptor 0 is closed, so that the next
    descriptor handed out is 0. *)
Definition w_fd0_free : world :=
  mk_world env_ok (mk_fs ∅ ∅ (delete 0 stdio)) ["new111"; "new222"] [] ∅ ∅ ∅ 0 [].

(** A local copy of [path] in [old_name], holding "hello", known to
    leveldb with ETag "v1", revalidated at time [t]. *)
Definition cached_fs (fds : gmap Z open_file) : filesys :=
  mk_fs {[ old_name := 1 ]} {[ 1 := hello ]} fds.
Definition cached_db (t : Z) : gmap string ldb_filecache_pdata :=
  {[ path2key path := mk_pdata old_name "v1" t ]}.
Definition w_cached (e : environment) (t : Z) (answers : list response) : world :=
  mk_world e (cached_fs stdio) ["new111"; "new222"] answers (cached_db t) ∅ ∅ 0 [].

(** A session on descriptor 3 with the given flags, its data at
    address 1. *)
Definition handle (rd wr md : bool) : ldb_filecache_sdata :=
  mk_sdata 3 "" rd wr md.
Definition w_session (e : environment) (sd : ldb_filecache_sdata) : world :=
  mk_world e (cached_fs (<[3 := mk_ofd 1 0 true true]> stdio))
           ["new111"; "new222"] [] (cached_db 100) ∅ {[ 1 := sd ]} 0 [].
Definition info_session : fuse_file_info := mk_info O_RDWR 1.

(** Answers of the server: the full content "world" with ETag "v2",
    and the full content "hello world" of which only the first five
    bytes arrive. *)
Definition full_content : response :=
  mk_resp NE_OK 200 "v2" (list_byte_of_string "world") 5 NE_OK.
Definition broken_transfer : response :=
  mk_resp NE_OK 200 "v2" (list_byte_of_string "hello world") 5 NE_OK.

(** Nothing cached; the server will answer with [full_content]. *)
Definition w_first : world :=
  mk_world env_ok (mk_fs ∅ ∅ stdio) ["new111"] [full_content] ∅ ∅ ∅ 0 [].

(** An answer that revalidates, and answers that are of no use. *)
Definition not_modified : response := mk_resp NE_OK 304 "v1" [] 0 NE_OK.
Definition busy_retry : response := mk_resp NE_OK 503 "" [] 0 NE_RETRY.
Definition not_found : response := mk_resp NE_OK 404 "" [] 0 NE_OK.
End Sample.

(** ** Reasoning about computations *)

Ltac unfold_monad :=
  unfold ret, undefined, gets, modify, emit, mbind, mret, M_bind, M_ret in *.

Section bind_facts.
Context {A B : Type}.
Implicit Types (m : M A) (k : A -> M B).

Lemma bind_run m k w a w' :
  m w = Some (a, w') -> (m ≫= k) w = k a w'.
Proof. intros H. unfold mbind, M_bind. by rewrite H. Qed.

Lemma bind_undefined m k w :
  m w = None -> (m ≫= k) w = None.
Proof. intros H. unfold mbind, M_bind. by rewrite H. Qed.

Lemma bind_inv m k w b w'' :
  (m ≫= k) w = Some (b, w'') ->
  exists a w', m w = Some (a, w') /\ k a w' = Some (b, w'').
Proof.
  unfold mbind, M_bind. destruct (m w) as [[a w']|]; [|done]. eauto.
Qed.
End bind_facts.

Lemma load_sdata_Some a sd w :
  heap w !! a = Some sd -> load_sdata a w = Some (sd, w).
Proof. intros H. unfold load_sdata. unfold_monad. by rewrite H. Qed.

Lemma load_sdata_inv a sd w w' :
  load_sdata a w = Some (sd, w') -> w' = w /\ heap w !! a = Some sd.
Proof.
  unfold load_sdata. unfold_monad.
  destruct (heap w !! a); [|done]. by intros [= -> ->].
Qed.

Lemma store_sdata_Some a f sd w :
  heap w !! a = Some sd ->
  store_sdata a f w = Some (tt, set_heap (<[a := f sd]> (heap w)) w).
Proof.
  intros H. unfold store_sdata. by rewrite (bind_run _ _ _ _ _ (load_sdata_Some _ _ _ H)).
Qed.

(** ** Write gating *)

(** C8: a write on a handle that is not writable returns 0 with [errno]
    set to EBADF; no [pwrite] (indeed no external call) is made, the file
    system and the session data are as before, so a [modified] flag that
    was false is still false. *)
Theorem write_not_writable info buf size offset w sd :
  heap w !! fh info = Some sd ->
  sd_writable sd = false ->
  exists w',
    ldb_filecache_write info buf size offset w = Some (0, w') /\
    errno w' = EBADF /\
    trace w' = trace w /\
    fs w' = fs w /\
    heap w' !! fh info = Some sd /\
    (sd_modified sd = false ->
     forall sd', heap w' !! fh info = Some sd' -> sd_modified sd' = false).
Proof.
  intros Hsd Hw. exists (set_errno EBADF w).
  split; [|repeat split; try done].
  - unfold ldb_filecache_write.
    rewrite (bind_run _ _ _ _ _ (load_sdata_Some _ _ _ Hsd)), Hw. reflexivity.
  - simpl. intros Hm sd' Hsd'. congruence.
Qed.

Lemma write_not_writable_witness :
  let w := Sample.w_session Sample.env_ok (Sample.handle true false false) in
  heap w !! fh Sample.info_session = Some (Sample.handle true false false) /\
  exists w',
    ldb_filecache_write Sample.info_session Sample.hello 5 0 w = Some (0, w') /\
    errno w' = EBADF /\
    trace w' = trace w /\
    fs w' = fs w /\
    heap w' !! fh Sample.info_session = Some (Sample.handle true false false) /\
    (sd_modified (Sample.handle true false false) = false ->
     forall sd', heap w' !! fh Sample.info_session = Some sd' ->
                 sd_modified sd' = false).
Proof.
  split; [reflexivity|].
  apply (write_not_writable Sample.info_session Sample.hello 5 0
           (Sample.w_session Sample.env_ok (Sample.handle true false false))
           (Sample.handle true false false)); reflexivity.
Defined.

(** ** Release *)

(** When sync fails, release returns its result at once: the world is the
    one sync left, nothing is closed. *)
Lemma release_sync_failed path info w sd r w' :
  heap w !! fh info = Some sd ->
  ldb_filecache_sync path info w = Some (r, w') ->
  r < 0 ->
  ldb_filecache_release path info w = Some (r, w').
Proof.
  intros Hsd Hsync Hr. unfold ldb_filecache_release.
  rewrite (bind_run _ _ _ _ _ (load_sdata_Some _ _ _ Hsd)).
  rewrite (bind_run _ _ _ _ _ Hsync).
  destruct (Z.ltb_spec r 0); [done | lia].
Qed.

(** When sync succeeds, release goes on to [ldb_filecache_close]. *)
Lemma release_sync_done path info w sd r w' :
  heap w !! fh info = Some sd ->
  ldb_filecache_sync path info w = Some (r, w') ->
  0 <= r ->
  ldb_filecache_release path info w =
    (ldb_filecache_close (fh info) ≫= fun _ => ret 0) w'.
Proof.
  intros Hsd Hsync Hr. unfold ldb_filecache_release.
  rewrite (bind_run _ _ _ _ _ (load_sdata_Some _ _ _ Hsd)).
  rewrite (bind_run _ _ _ _ _ Hsync).
  destruct (Z.ltb_spec r 0); [lia | done].
Qed.

(** C1, at a failing input: a writable, modified session on descriptor 3
    whose upload the server refuses.  Release returns -1 after the seek
    and the PUT; descriptor 3 is still open and no [close] was made. *)
Theorem release_leaves_descriptor_open :
  let w := Sample.w_session Sample.env_put_fails (Sample.handle true true true) in
  exists w',
    ldb_filecache_release Sample.path Sample.info_session w = Some (-1, w') /\
    trace w' = [EvLseek 3; EvHttpPut Sample.path Sample.hello] /\
    fdtab (fs w') !! 3 = Some (mk_ofd 1 0 true true).
Proof.
  eexists. split; [vm_compute; reflexivity|]. split; vm_compute; reflexivity.
Qed.

(** ** Sync *)

Ltac unfold_sync :=
  unfold ldb_filecache_sync, sys_lseek, session_get, ne_put, sys_time,
    stat_cache_value_set.

(** Sync of a writable, modified session whose descriptor is open, with a
    session at hand and a server that accepts the upload. *)
Lemma sync_dirty path info w sd o :
  heap w !! fh info = Some sd ->
  sd_writable sd = true ->
  sd_modified sd = true ->
  fdtab (fs w) !! sd_fd sd = Some o ->
  session_ok (env w) = true ->
  put_ok (env w) = true ->
  exists w',
    ldb_filecache_sync path info w = Some (0, w') /\
    env w' = env w /\
    heap w' = heap w /\
    inodes (fs w') = inodes (fs w) /\
    (exists o', fdtab (fs w') !! sd_fd sd = Some o' /\ of_ino o' = of_ino o) /\
    trace w' = trace w ++
      [EvLseek (sd_fd sd);
       EvHttpPut path (default [] (inodes (fs w) !! of_ino o));
       EvLseek (sd_fd sd);
       EvStatSet path
         (synthetic_stat
            (Z.of_nat (length (default [] (inodes (fs w) !! of_ino o))))
            (clock (env w)) (env w))].
Proof.
  intros Hsd Hw Hm Ho Hs Hp.
  unfold ldb_filecache_sync.
  rewrite (bind_run _ _ _ _ _ (load_sdata_Some _ _ _ Hsd)), Hw, Hm. simpl.
  unfold_sync. unfold_monad. simpl.
  rewrite Ho. simpl. rewrite Hs. simpl.
  rewrite lookup_insert_eq. simpl. rewrite Hp. simpl.
  rewrite lookup_insert_eq. simpl.
  eexists. split; [reflexivity|]. simpl.
  repeat split.
  - rewrite lookup_insert_eq. eauto.
  - by rewrite <- !app_assoc.
Qed.

(** A sync of a writable, modified session can only succeed along that
    path. *)
Lemma sync_dirty_inv path info w sd w' :
  heap w !! fh info = Some sd ->
  sd_writable sd = true ->
  sd_modified sd = true ->
  ldb_filecache_sync path info w = Some (0, w') ->
  exists o,
    fdtab (fs w) !! sd_fd sd = Some o /\
    session_ok (env w) = true /\
    put_ok (env w) = true.
Proof.
  intros Hsd Hw Hm.
  unfold ldb_filecache_sync.
  rewrite (bind_run _ _ _ _ _ (load_sdata_Some _ _ _ Hsd)), Hw, Hm. simpl.
  unfold_sync. unfold_monad. simpl.
  destruct (fdtab (fs w) !! sd_fd sd) as [o|] eqn:Ho; simpl; [|done].
  destruct (session_ok (env w)) eqn:Hs; simpl; [|done].
  rewrite lookup_insert_eq. simpl.
  destruct (put_ok (env w)) eqn:Hp; simpl; [|done].
  eauto.
Qed.

(** C2 as stated fails: a writable, modified session is synced with
    success, and the second sync uploads the file once more. *)
Lemma sync_not_idempotent :
  ~ sync_idempotent Sample.path Sample.info_session
      (Sample.w_session Sample.env_ok (Sample.handle true true true)).
Proof.
  intros H.
  edestruct H as (w2 & H2 & Hno); [vm_compute; reflexivity|].
  vm_compute in H2. injection H2 as <-.
  apply (Hno Sample.hello). vm_compute.
  apply list_elem_of_further, list_elem_of_here.
Qed.

(** C2, amended: sync does nothing and returns 0 when the session is not
    writable or not modified.  Sync never clears [modified]: after a
    successful sync of a writable, modified session the session data is
    as before, and a second sync seeks, uploads the file again, and
    succeeds. *)
Theorem sync_noop_or_upload_again path info w sd :
  heap w !! fh info = Some sd ->
  (sd_writable sd = false \/ sd_modified sd = false ->
   ldb_filecache_sync path info w = Some (0, w)) /\
  (sd_writable sd = true -> sd_modified sd = true ->
   forall w1,
     ldb_filecache_sync path info w = Some (0, w1) ->
     heap w1 !! fh info = Some sd /\
     exists w2 body st,
       ldb_filecache_sync path info w1 = Some (0, w2) /\
       trace w2 = trace w1 ++
         [EvLseek (sd_fd sd); EvHttpPut path body; EvLseek (sd_fd sd);
          EvStatSet path st]).
Proof.
  intros Hsd. split.
  - intros Hflag. unfold ldb_filecache_sync.
    rewrite (bind_run _ _ _ _ _ (load_sdata_Some _ _ _ Hsd)).
    destruct Hflag as [-> | ->]; [done|].
    by destruct (sd_writable sd).
  - intros Hw Hm w1 Hsync.
    destruct (sync_dirty_inv _ _ _ _ _ Hsd Hw Hm Hsync) as (o & Ho & Hs & Hp).
    destruct (sync_dirty path _ _ _ _ Hsd Hw Hm Ho Hs Hp)
      as (w1' & Hsync' & Henv & Hheap & Hino & (o' & Ho' & Hino') & Htr).
    assert (w1' = w1) as -> by congruence.
    assert (Hsd1 : heap w1 !! fh info = Some sd) by (by rewrite Hheap).
    split; [done|].
    rewrite <- Henv in Hs, Hp.
    destruct (sync_dirty path _ _ _ _ Hsd1 Hw Hm Ho' Hs Hp)
      as (w2 & Hsync2 & _ & _ & _ & _ & Htr2).
    eauto 6.
Qed.

Lemma sync_noop_or_upload_again_witness :
  let w := Sample.w_session Sample.env_ok (Sample.handle true true true) in
  heap w !! fh Sample.info_session = Some (Sample.handle true true true) /\
  exists w1 w2 body st,
    ldb_filecache_sync Sample.path Sample.info_session w = Some (0, w1) /\
    heap w1 !! fh Sample.info_session = Some (Sample.handle true true true) /\
    ldb_filecache_sync Sample.path Sample.info_session w1 = Some (0, w2) /\
    trace w2 = trace w1 ++
      [EvLseek 3; EvHttpPut Sample.path body; EvLseek 3;
       EvStatSet Sample.path st].
Proof.
  split; [reflexivity|].
  pose proof (sync_noop_or_upload_again Sample.path Sample.info_session
           (Sample.w_session Sample.env_ok (Sample.handle true true true))
           (Sample.handle true true true) eq_refl) as [_ H].
  edestruct (H eq_refl eq_refl) as (Hsd & w2 & body & st & H2 & Htr);
    [vm_compute; reflexivity|].
  eauto 10.
Defined.

(** ** Fresh numbers *)

Section lowest_free.
Context {A : Type}.
Implicit Types (m : gmap Z A).

Lemma lowest_free_ge lo m : lo <= lowest_free lo m.
Proof.
  unfold lowest_free.
  destruct (List.find _ _) as [k|] eqn:Hfind; simpl; [|lia].
  apply List.find_some in Hfind as [Hin _].
  apply list_elem_of_In, elem_of_seqZ in Hin. lia.
Qed.

(** Among [size m + 1] keys one is not in [m]. *)
Lemma lowest_free_None lo m : m !! lowest_free lo m = None.
Proof.
  unfold lowest_free.
  destruct (List.find _ _) as [k|] eqn:Hfind; simpl.
  - apply List.find_some in Hfind as [_ Hk].
    by apply bool_decide_eq_true in Hk.
  - exfalso.
    assert (Hsub : list_to_set (C:=gset Z)
                     (seqZ lo (Z.of_nat (size m) + 1)) ⊆ dom m).
    { intros k Hk. apply elem_of_list_to_set in Hk.
      apply elem_of_dom.
      apply list_elem_of_In in Hk.
      apply (List.find_none _ _ Hfind) in Hk.
      apply bool_decide_eq_false in Hk.
      by apply not_eq_None_Some. }
    apply subseteq_size in Hsub.
    rewrite size_list_to_set in Hsub by apply NoDup_seqZ.
    rewrite length_seqZ, size_dom in Hsub. lia.
Qed.
End lowest_free.

(** ** The freshness window *)

(** The difference of two time stamps is the difference of integers
    as long as that fits in 64 bits. *)
Lemma time_t_sub_exact a b :
  - 2 ^ 63 <= a - b < 2 ^ 63 -> time_t_sub a b = a - b.
Proof.
  intros H. unfold time_t_sub. rewrite Z.mod_small; lia.
Qed.




(** ** The calls of the resolver, one at a time *)

(** A name that [mkstemp] settles on is free, and it is made of the
    prefix and one of the suffixes supplied; the names tried before it
    are taken. *)
Lemma mkstemp_attempts_found prefix d supply last name rest :
  mkstemp_attempts prefix d supply last = (true, name, rest) ->
  d !! name = None /\
  exists tried sfx,
    supply = tried ++ sfx :: rest /\ name = prefix +:+ sfx /\
    Forall (fun s => is_Some (d !! (prefix +:+ s))) tried.
Proof.
  revert last. induction supply as [|sfx supply IH]; intros last; simpl.
  - intros [=].
  - destruct (d !! (prefix +:+ sfx)) eqn:Hd.
    + intros H. destruct (IH _ H) as (Hfree & tried & sfx' & -> & -> & Htried).
      split; [done|]. exists (sfx :: tried), sfx'.
      split_and!; [done | done |]. constructor; [by rewrite Hd | done].
    + intros [= <- <-]. split; [done|]. exists [], sfx.
      split_and!; [done | done | constructor].
Qed.

(** With a first suffix whose name is free, that name is taken at
    once. *)
Lemma mkstemp_attempts_first prefix d sfx rest last :
  d !! (prefix +:+ sfx) = None ->
  mkstemp_attempts prefix d (sfx :: rest) last = (true, prefix +:+ sfx, rest).
Proof. intros H. simpl. by rewrite H. Qed.

Lemma mkstemp_calls template w :
  exists fd name tried w',
    mkstemp template w = Some ((fd, name), w') /\
    env w' = env w /\
    trace w' = trace w ++ [EvMkstemp tried fd].
Proof.
  unfold mkstemp. destruct (is_template template); simpl.
  - unfold_monad. simpl.
    destruct (mkstemp_attempts _ _ _ _) as [[[] name] rest]; simpl;
      by eexists _, _, _, _.
  - unfold_monad. simpl. by eexists _, _, _, _.
Qed.

Lemma new_cache_file_calls cache_path w :
  exists r name fd tried w',
    new_cache_file cache_path w = Some ((r, name, fd), w') /\
    env w' = env w /\
    trace w' = trace w ++ [EvMkstemp tried fd].
Proof.
  unfold new_cache_file.
  generalize (substring 0 (PATH_MAX - 1)
                (cache_path +:+ "/files/fusedav-cache-XXXXXX")).
  intros template.
  destruct (mkstemp_calls template w) as (fd & name & tried & w' & Hrun & He & Ht).
  rewrite (bind_run _ _ _ _ _ Hrun).
  destruct (fd <? 0); by eexists _, _, _, _, _.
Qed.

Lemma ne_read_response_to_fd_calls r fd w :
  exists res complete w',
    ne_read_response_to_fd r fd w = Some (res, w') /\
    env w' = env w /\
    trace w' = trace w ++ [EvReadBody fd complete].
Proof.
  unfold ne_read_response_to_fd, sys_write.
  destruct (bool_decide (take (r_delivered r) (r_body r) = [])); simpl.
  - unfold_monad. simpl. by eexists _, _, _.
  - unfold_monad. simpl.
    destruct (fdtab (fs w) !! fd) as [o|]; simpl; [|by eexists _, _, _].
    destruct (of_wr o); simpl; by eexists _, _, _.
Qed.

Lemma ldb_filecache_pdata_set_calls path pd w :
  exists res w',
    ldb_filecache_pdata_set path (Some pd) w = Some (res, w') /\
    env w' = env w /\
    trace w' = trace w ++ [EvDbPut (path2key path) pd].
Proof.
  unfold ldb_filecache_pdata_set, leveldb_put. unfold_monad. simpl.
  destruct (db_put_err (env w)); simpl; by eexists _, _.
Qed.

Lemma sys_unlink_calls name w :
  exists res w',
    sys_unlink name w = Some (res, w') /\
    env w' = env w /\
    trace w' = trace w ++ [EvUnlink name].
Proof.
  unfold sys_unlink. unfold_monad. simpl.
  destruct (dir (fs w) !! name); simpl; by eexists _, _.
Qed.

(** ** Replacement of a cached file *)

(** The 200 branch of the request loop for a path that has an entry:
    mkstemp, the transfer of the body, the put of the entry, the unlink
    of the old file, in this order whatever the results of the first
    three; the entry that is put carries the ETag it had. *)
Lemma request_loop_200_calls cache_path path w pd r rest :
  r_begin r = NE_OK ->
  r_code r = 200 ->
  exists fd tried name complete w',
    request_loop (r :: rest) cache_path path (Some pd) w = Some (fd, w') /\
    trace w' = trace w ++
      [EvHttpGet path (Some (pd_etag pd));
       EvMkstemp tried fd;
       EvReadBody fd complete;
       EvDbPut (path2key path) (mk_pdata name (pd_etag pd) (clock (env w)));
       EvUnlink (pd_filename pd)].
Proof.
  intros Hbegin Hcode. cbn [request_loop]. rewrite Hbegin, Hcode.
  change (negb (NE_OK =? NE_OK)) with false.
  change (200 =? 304) with false. change (200 =? 200) with true. cbv iota.
  unfold modify at 1, emit at 1, modify at 1.
  unfold mbind at 1 2, M_bind.
  set (w0 := set_trace _ _).
  destruct (new_cache_file_calls cache_path w0)
    as (r0 & name & fd & tried & w1 & Hrun1 & He1 & Ht1).
  rewrite (bind_run _ _ _ _ _ Hrun1).
  destruct (ne_read_response_to_fd_calls r fd w1)
    as (r2 & complete & w2 & Hrun2 & He2 & Ht2).
  rewrite (bind_run _ _ _ _ _ Hrun2).
  unfold sys_time at 1, gets at 1. unfold mbind at 1, M_bind.
  destruct (ldb_filecache_pdata_set_calls path
              (set_pd_last_server_update (clock (env w2))
                 (set_pd_filename name pd)) w2)
    as (r3 & w3 & Hrun3 & He3 & Ht3).
  rewrite (bind_run _ _ _ _ _ Hrun3).
  destruct (sys_unlink_calls (pd_filename pd) w3)
    as (r4 & w4 & Hrun4 & He4 & Ht4).
  rewrite (bind_run _ _ _ _ _ Hrun4).
  exists fd, tried, name, complete, w4. split; [reflexivity|].
  rewrite Ht4, Ht3, Ht2, Ht1, He2, He1. subst w0. simpl.
  by rewrite <- !app_assoc.
Qed.

(** With a stale entry the resolver looks the entry up and enters the
    request loop with it. *)
Lemma ldb_get_fresh_fd_stale cache_path path w pd :
  db_get_err (env w) = None ->
  db w !! path2key path = Some pd ->
  REFRESH_INTERVAL < time_t_sub (clock (env w)) (pd_last_server_update pd) ->
  request_ok (env w) = true ->
  ldb_get_fresh_fd cache_path path w =
    request_loop (responses w) cache_path path (Some pd)
      (set_trace (trace w ++ [EvDbGet (path2key path)]) w).
Proof.
  intros Herr Hpd Hstale Hreq.
  unfold ldb_get_fresh_fd, ldb_filecache_pdata_get, leveldb_get, sys_time.
  unfold_monad. simpl. rewrite Herr. simpl. rewrite Hpd. simpl.
  destruct (Z.leb_spec (time_t_sub (clock (env w)) (pd_last_server_update pd)) REFRESH_INTERVAL);
    [lia|].
  simpl. by rewrite Hreq.
Qed.

(** Every replacement of the file of an existing entry makes its calls in
    the order: create the new file, transfer the body, put the entry,
    unlink the old file. *)
Lemma replacement_calls cache_path path w pd r rest :
  db_get_err (env w) = None ->
  db w !! path2key path = Some pd ->
  REFRESH_INTERVAL < time_t_sub (clock (env w)) (pd_last_server_update pd) ->
  request_ok (env w) = true ->
  responses w = r :: rest ->
  r_begin r = NE_OK ->
  r_code r = 200 ->
  exists fd tried name complete w',
    ldb_get_fresh_fd cache_path path w = Some (fd, w') /\
    trace w' = trace w ++
      [EvDbGet (path2key path);
       EvHttpGet path (Some (pd_etag pd));
       EvMkstemp tried fd;
       EvReadBody fd complete;
       EvDbPut (path2key path) (mk_pdata name (pd_etag pd) (clock (env w)));
       EvUnlink (pd_filename pd)].
Proof.
  intros Herr Hpd Hstale Hreq Hresp Hbegin Hcode.
  rewrite (ldb_get_fresh_fd_stale _ _ _ _ Herr Hpd Hstale Hreq), Hresp.
  destruct (request_loop_200_calls cache_path path
              (set_trace (trace w ++ [EvDbGet (path2key path)]) w) pd r rest
              Hbegin Hcode)
    as (fd & tried & name & complete & w' & Hrun & Htr).
  exists fd, tried, name, complete, w'. split; [done|].
  rewrite Htr. simpl. by rewrite <- app_assoc.
Qed.

(** C3, at a failing input: the entry of [path] has ETag "v1" and is
    stale, the server answers 200 with ETag "v2" and the body "world".
    The entry put into the store names the new file and the current
    time, and still has ETag "v1". *)
Theorem replaced_entry_keeps_old_etag :
  let w := Sample.w_cached Sample.env_ok 0 [Sample.full_content] in
  exists w',
    ldb_get_fresh_fd Sample.cache_path Sample.path w = Some (3, w') /\
    r_etag Sample.full_content = "v2" /\
    db w' !! path2key Sample.path = Some (mk_pdata Sample.new_name "v1" 100) /\
    (exists ino, dir (fs w') !! Sample.new_name = Some ino /\
                 inodes (fs w') !! ino = Some (r_body Sample.full_content)).
Proof.
  eexists. split; [vm_compute; reflexivity|].
  split; [reflexivity|]. split; [vm_compute; reflexivity|].
  exists 2. split; vm_compute; reflexivity.
Qed.

(** C9, at a failing input: the entry of [path] is stale, the server
    answers 200 and the transfer of the body "hello world" breaks after
    five bytes.  The calls are made in the usual order; the entry put
    into the store names the new file, which holds "hello" only, and the
    old file is unlinked. *)
Theorem entry_put_after_broken_transfer :
  let w := Sample.w_cached Sample.env_ok 0 [Sample.broken_transfer] in
  exists w',
    ldb_get_fresh_fd Sample.cache_path Sample.path w = Some (3, w') /\
    trace w' =
      [EvDbGet (path2key Sample.path);
       EvHttpGet Sample.path (Some "v1");
       EvMkstemp Sample.new_name 3;
       EvReadBody 3 false;
       EvDbPut (path2key Sample.path) (mk_pdata Sample.new_name "v1" 100);
       EvUnlink Sample.old_name] /\
    db w' !! path2key Sample.path = Some (mk_pdata Sample.new_name "v1" 100) /\
    dir (fs w') !! Sample.new_name = Some 2 /\
    inodes (fs w') !! 2 = Some Sample.hello /\
    Sample.hello <> r_body Sample.broken_transfer /\
    dir (fs w') !! Sample.old_name = None.
Proof.
  eexists. split; [vm_compute; reflexivity|].
  split_and!; try (vm_compute; reflexivity).
  vm_compute. discriminate.
Qed.

(** ** Open *)

Ltac run_heap H :=
  unfold store_sdata, load_sdata, open_fail, free_sdata; unfold_monad; simpl;
  repeat (first [rewrite H | rewrite lookup_insert_eq]; simpl).

(** The second half of open, on session data that is in the heap. *)
Lemma open_install_run info a sd w :
  heap w !! a = Some sd ->
  a <> 0 ->
  exists w',
    env w' = env w /\ fs w' = fs w /\ statcache w' = statcache w /\
    db w' = db w /\
    if sd_fd sd >? 0 then
      open_install info a w = Some ((0, mk_info (flags info) a), w') /\
      heap w' !! a =
        Some (mk_sdata (sd_fd sd) (sd_filename sd)
                (sd_readable sd || readable_requested (flags info))
                (sd_writable sd || writable_requested (flags info))
                (sd_modified sd)) /\
      trace w' = trace w
    else
      open_install info a w = Some ((-1, mk_info (flags info) 0), w') /\
      heap w' !! a = None /\
      trace w' = trace w ++ [EvFree a].
Proof.
  intros Hsd Ha. unfold open_install.
  assert (Hz : (a =? 0) = false) by (by apply Z.eqb_neq).
  destruct (readable_requested (flags info)), (writable_requested (flags info));
    run_heap Hsd; rewrite ?orb_true_r, ?orb_false_r;
    destruct (sd_fd sd >? 0); simpl; rewrite ?Hz; simpl;
    eexists; (split_and!; [..|reflexivity| |]); simpl;
    rewrite ?lookup_insert_eq, ?lookup_delete_eq; try done.
  all: by destruct sd.
Qed.

Lemma store_sdata_inv a f w w2 :
  store_sdata a f w = Some (tt, w2) ->
  exists sd, heap w !! a = Some sd /\ w2 = set_heap (<[a := f sd]> (heap w)) w.
Proof.
  unfold store_sdata. intros H.
  apply bind_inv in H as (sd & w1 & Hload & Hmod).
  apply load_sdata_inv in Hload as [-> Hsd].
  unfold modify in Hmod. injection Hmod as <-. eauto.
Qed.

Lemma new_cache_file_inv cache_path w r name fd w' :
  new_cache_file cache_path w = Some ((r, name, fd), w') ->
  (r <? 0) = (fd <? 0).
Proof.
  unfold new_cache_file. intros H.
  apply bind_inv in H as ([fd0 name0] & w1 & _ & H).
  destruct (fd0 <? 0) eqn:Hfd; unfold ret, mret, M_ret in H;
    injection H as <- <- <- <-; by rewrite Hfd.
Qed.

(** After the first half of open the session data is in the heap; when
    control left by [goto fail], its descriptor is negative. *)
Lemma open_obtain_fd_inv cache_path path replace a w acq w2 :
  open_obtain_fd cache_path path replace a w = Some (acq, w2) ->
  exists sd, heap w2 !! a = Some sd /\ (acq = false -> sd_fd sd < 0).
Proof.
  unfold open_obtain_fd. destruct replace; intros H.
  - apply bind_inv in H as ([] & w1 & _ & H).
    apply bind_inv in H as ([[r name] fd] & w3 & Hncf & H).
    apply new_cache_file_inv in Hncf.
    apply bind_inv in H as ([] & w4 & _ & H).
    apply bind_inv in H as ([] & w5 & Hst & H).
    apply store_sdata_inv in Hst as (sd & Hsd & ->).
    exists (set_sd_fd fd sd).
    destruct (r <? 0) eqn:Hr.
    + unfold ret, mret, M_ret in H. injection H as <- <-. simpl.
      rewrite lookup_insert_eq. split; [done|]. intros _.
      symmetry in Hncf. apply Z.ltb_lt in Hncf. done.
    + unfold sys_time, stat_cache_value_set in H. unfold_monad. simpl in H.
      injection H as <- <-. simpl. by rewrite lookup_insert_eq.
  - apply bind_inv in H as (fd & w1 & _ & H).
    apply bind_inv in H as ([] & w3 & Hst & H).
    apply store_sdata_inv in Hst as (sd & Hsd & ->).
    unfold ret, mret, M_ret in H. injection H as <- <-. simpl.
    rewrite lookup_insert_eq. by eexists.
Qed.

(** Open, once a session is at hand and the session data is allocated:
    the two halves in turn. *)
Lemma ldb_filecache_open_run cache_path path info replace w acq w2 :
  session_ok (env w) = true ->
  malloc_ok (env w) = true ->
  open_obtain_fd cache_path path replace (lowest_free 1 (heap w))
    (set_heap (<[lowest_free 1 (heap w) := zero_sdata]> (heap w)) w)
    = Some (acq, w2) ->
  ldb_filecache_open cache_path path info replace w =
    (if negb acq then open_fail (-1) (lowest_free 1 (heap w)) info
     else open_install info (lowest_free 1 (heap w))) w2.
Proof.
  intros Hs Hm Hobtain.
  pose proof (lowest_free_ge 1 (heap w)) as Hge.
  set (a := lowest_free 1 (heap w)) in *.
  assert (Hz : (a =? 0) = false) by (apply Z.eqb_neq; lia).
  unfold ldb_filecache_open, session_get, malloc_sdata. unfold_monad. simpl.
  rewrite Hs. simpl. rewrite Hm. simpl. fold a. rewrite Hz. simpl.
  unfold_monad. by rewrite Hobtain.
Qed.

(** C10: with a session at hand and the session data allocated at [a],
    let [sd] be the session data after the descriptor was obtained (by
    mkstemp or by the resolver).  Open returns 0 exactly when the
    descriptor in [sd] is above 0, and then the file info holds [a],
    where the session data with that descriptor is found.  Otherwise, and
    so for descriptor 0, open returns a negative value, the file info
    holds NULL, and the session data was freed. *)
Theorem open_succeeds_iff_descriptor_positive
    cache_path path info replace w acq w2 :
  session_ok (env w) = true ->
  malloc_ok (env w) = true ->
  open_obtain_fd cache_path path replace (lowest_free 1 (heap w))
    (set_heap (<[lowest_free 1 (heap w) := zero_sdata]> (heap w)) w)
    = Some (acq, w2) ->
  exists sd ret info' w',
    heap w2 !! lowest_free 1 (heap w) = Some sd /\
    ldb_filecache_open cache_path path info replace w = Some ((ret, info'), w') /\
    (ret = 0 <-> 0 < sd_fd sd) /\
    (0 < sd_fd sd ->
     info' = mk_info (flags info) (lowest_free 1 (heap w)) /\
     fh info' <> 0 /\
     exists sd', heap w' !! fh info' = Some sd' /\ sd_fd sd' = sd_fd sd) /\
    (sd_fd sd <= 0 ->
     ret < 0 /\ fh info' = 0 /\
     heap w' !! lowest_free 1 (heap w) = None /\
     trace w' = trace w2 ++ [EvFree (lowest_free 1 (heap w))]).
Proof.
  intros Hs Hm Hobtain.
  pose proof (lowest_free_ge 1 (heap w)) as Hge.
  set (a := lowest_free 1 (heap w)) in *.
  assert (Ha : a <> 0) by lia.
  assert (Hz : (a =? 0) = false) by (by apply Z.eqb_neq).
  destruct (open_obtain_fd_inv _ _ _ _ _ _ _ Hobtain) as (sd & Hsd & Hneg).
  pose proof (ldb_filecache_open_run _ _ info _ _ _ _ Hs Hm Hobtain) as Hopen.
  fold a in Hopen.
  exists sd. destruct acq; simpl in Hopen.
  - destruct (open_install_run info a sd w2 Hsd Ha)
      as (w' & _ & _ & _ & _ & Hrun).
    destruct (Z.gtb_spec (sd_fd sd) 0) as [Hpos|Hnpos].
    + destruct Hrun as (Hrun & Hheap & Htr).
      exists 0, (mk_info (flags info) a), w'.
      split_and!; [done | congruence | done | | lia].
      intros _. split_and!; [done | done |]. simpl. eauto.
    + destruct Hrun as (Hrun & Hheap & Htr).
      exists (-1), (mk_info (flags info) 0), w'.
      split_and!; [done | congruence | split; lia | lia | done].
  - specialize (Hneg eq_refl).
    eexists (-1), (mk_info (flags info) 0), _.
    split_and!; [done | | split; lia | lia |].
    + rewrite Hopen. unfold open_fail, free_sdata. unfold_monad. simpl.
      rewrite Hz. reflexivity.
    + intros _. simpl. by rewrite lookup_delete_eq.
Qed.

Lemma open_succeeds_iff_descriptor_positive_witness :
  exists ret info' w',
    ldb_filecache_open Sample.cache_path Sample.path (mk_info O_WRONLY 0) true
      Sample.w_fd0_free = Some ((ret, info'), w') /\
    ret < 0 /\ fh info' = 0 /\ heap w' !! 1 = None.
Proof.
  edestruct (open_succeeds_iff_descriptor_positive Sample.cache_path
               Sample.path (mk_info O_WRONLY 0) true Sample.w_fd0_free)
    as (sd & ret & info' & w' & Hsd & Hopen & _ & _ & Hfail);
    [reflexivity | reflexivity | vm_compute; reflexivity |].
  vm_compute in Hsd. injection Hsd as <-.
  destruct Hfail as (Hret & Hfh & Hheap & _); [simpl; lia|].
  exists ret, info', w'. split_and!; done.
Defined.

(** The flags as the two conditions see them: O_RDONLY is 0, so the
    first test of line 231 never holds. *)
Lemma readable_requested_O_RDWR flags :
  readable_requested flags = negb (Z.land flags O_RDWR =? 0).
Proof. unfold readable_requested, O_RDONLY. by rewrite Z.land_0_r. Qed.

(** C4, at a failing input: an open for reading only (flags O_RDONLY) of
    a path with a fresh entry succeeds with session data that is neither
    readable nor writable. *)
Theorem read_only_open_not_readable :
  let w := Sample.w_cached Sample.env_ok 100 [] in
  readable_requested O_RDONLY = false /\
  exists w',
    ldb_filecache_open Sample.cache_path Sample.path (mk_info O_RDONLY 0) false w
      = Some ((0, mk_info O_RDONLY 1), w') /\
    heap w' !! 1 = Some (mk_sdata 3 "" false false false).
Proof.
  split; [reflexivity|].
  eexists. split; vm_compute; reflexivity.
Qed.

(** mkstemp and the heap do not meet. *)
Lemma mkstemp_set_heap template h w :
  mkstemp template (set_heap h w) =
    match mkstemp template w with
    | Some (x, w') => Some (x, set_heap h w')
    | None => None
    end.
Proof.
  unfold mkstemp. destruct (is_template template); simpl.
  - unfold_monad. simpl.
    by destruct (mkstemp_attempts _ _ _ _) as [[[] name] rest].
  - by unfold_monad.
Qed.

Lemma new_cache_file_set_heap cache_path h w :
  new_cache_file cache_path (set_heap h w) =
    match new_cache_file cache_path w with
    | Some (x, w') => Some (x, set_heap h w')
    | None => None
    end.
Proof.
  unfold new_cache_file, mbind, M_bind. rewrite mkstemp_set_heap.
  destruct (mkstemp _ w) as [[[fd name] w']|]; [|done].
  by destruct (fd <? 0).
Qed.

Lemma mkstemp_created template w fd name w' :
  mkstemp template w = Some ((fd, name), w') ->
  0 <= fd ->
  env w' = env w /\ heap w' = heap w /\ statcache w' = statcache w /\
  db w' = db w /\ responses w' = responses w /\
  trace w' = trace w ++ [EvMkstemp name fd].
Proof.
  unfold mkstemp. destruct (is_template template); simpl.
  - unfold_monad. simpl.
    destruct (mkstemp_attempts _ _ _ _) as [[[] name'] rest]; simpl;
      intros [= <- <- <-]; [done|lia].
  - unfold_monad. simpl. intros [= <- <- <-]. lia.
Qed.

Lemma new_cache_file_created cache_path w name fd w' :
  new_cache_file cache_path w = Some ((0, name, fd), w') ->
  0 <= fd /\
  env w' = env w /\ heap w' = heap w /\ statcache w' = statcache w /\
  db w' = db w /\ responses w' = responses w /\
  trace w' = trace w ++ [EvMkstemp name fd].
Proof.
  unfold new_cache_file. intros H.
  apply bind_inv in H as ([fd0 name0] & w1 & Hmk & H).
  destruct (Z.ltb_spec fd0 0); unfold ret, mret, M_ret in H; simplify_eq.
  split; [done|]. by apply (mkstemp_created _ _ _ _ _ Hmk).
Qed.

(** C5 as stated fails: a replace-open for writing in a world with
    nothing cached hands out session data marked modified. *)
Lemma replace_open_is_modified :
  ~ replace_open_unmodified Sample.cache_path Sample.path
      (mk_info O_WRONLY 0) Sample.w_empty.
Proof.
  intros H.
  enough (true = false) by done.
  eapply (H 0 (mk_info O_WRONLY 1) _
            (mk_sdata 3 Sample.new_name false true true));
    vm_compute; reflexivity.
Qed.

(** C5, amended: a replace-open that gets its new file from
    [new_cache_file] with a descriptor above 0 succeeds having made two
    calls only, the mkstemp and the setting of the attributes: the
    resolver is not entered (no lookup in the store, no request).  The
    attributes published for the path have size 0.  The session data has
    the new descriptor and file name and is marked modified from the
    start. *)
Theorem replace_open_fresh_file_modified cache_path path info w name fd w1 :
  session_ok (env w) = true ->
  malloc_ok (env w) = true ->
  new_cache_file cache_path w = Some ((0, name, fd), w1) ->
  0 < fd ->
  exists w',
    ldb_filecache_open cache_path path info true w
      = Some ((0, mk_info (flags info) (lowest_free 1 (heap w))), w') /\
    trace w' = trace w ++
      [EvMkstemp name fd;
       EvStatSet path (synthetic_stat 0 (clock (env w)) (env w))] /\
    statcache w' !! path = Some (synthetic_stat 0 (clock (env w)) (env w)) /\
    st_size (synthetic_stat 0 (clock (env w)) (env w)) = 0 /\
    db w' = db w /\
    heap w' !! lowest_free 1 (heap w) =
      Some (mk_sdata fd name (readable_requested (flags info))
              (writable_requested (flags info)) true).
Proof.
  intros Hs Hm Hncf Hfd.
  pose proof (lowest_free_ge 1 (heap w)) as Hge.
  set (a := lowest_free 1 (heap w)) in *.
  assert (Ha : a <> 0) by lia.
  assert (Hz : (a =? 0) = false) by (by apply Z.eqb_neq).
  destruct (new_cache_file_created _ _ _ _ _ Hncf)
    as (_ & He1 & Hh1 & Hst1 & Hdb1 & _ & Htr1).
  set (sd := mk_sdata fd name false false true).
  set (w2 := set_statcache
               (<[path := synthetic_stat 0 (clock (env w)) (env w)]> (statcache w))
               (set_trace (trace w1 ++
                   [EvStatSet path (synthetic_stat 0 (clock (env w)) (env w))])
                 (set_heap (<[a := sd]> (heap w)) w1))).
  assert (Hobtain : exists h,
            open_obtain_fd cache_path path true a
              (set_heap (<[a := zero_sdata]> (heap w)) w)
            = Some (true, set_heap h w2) /\ h !! a = Some sd).
  { unfold open_obtain_fd.
    erewrite bind_run; [|by apply store_sdata_Some, lookup_insert_eq].
    erewrite bind_run; [|by rewrite !new_cache_file_set_heap, Hncf].
    cbv beta iota.
    erewrite bind_run; [|by apply store_sdata_Some, lookup_insert_eq].
    erewrite bind_run; [|by apply store_sdata_Some, lookup_insert_eq].
    unfold sys_time, stat_cache_value_set. unfold_monad. simpl.
    rewrite He1, Hst1. eexists. split; [reflexivity|].
    simpl. by rewrite lookup_insert_eq. }
  destruct Hobtain as (h & Hobtain & Hh).
  destruct (open_install_run info a sd (set_heap h w2) Hh Ha)
    as (w' & He & Hfs & Hst & Hdb & Hrun).
  simpl in Hrun. destruct (Z.gtb_spec fd 0) as [_|]; [|lia].
  destruct Hrun as (Hrun & Hheap & Htr).
  exists w'. split_and!.
  - by rewrite (ldb_filecache_open_run _ _ info _ _ _ _ Hs Hm Hobtain).
  - rewrite Htr. simpl. rewrite Htr1. by rewrite <- app_assoc.
  - rewrite Hst. simpl. by rewrite lookup_insert_eq.
  - done.
  - by rewrite Hdb.
  - done.
Qed.

Lemma replace_open_fresh_file_modified_witness :
  exists w',
    ldb_filecache_open Sample.cache_path Sample.path (mk_info O_WRONLY 0) true
      Sample.w_empty = Some ((0, mk_info O_WRONLY 1), w') /\
    trace w' =
      [EvMkstemp Sample.new_name 3;
       EvStatSet Sample.path (synthetic_stat 0 100 Sample.env_ok)] /\
    statcache w' !! Sample.path = Some (synthetic_stat 0 100 Sample.env_ok) /\
    heap w' !! 1 = Some (mk_sdata 3 Sample.new_name false true true).
Proof.
  edestruct (replace_open_fresh_file_modified Sample.cache_path Sample.path
               (mk_info O_WRONLY 0) Sample.w_empty Sample.new_name 3)
    as (w' & Hopen & Htr & Hst & _ & _ & Hheap);
    [reflexivity | reflexivity | vm_compute; reflexivity | lia |].
  exists w'. split_and!; done.
Defined.

(** ** Lookup in the store *)

(** C6 as stated fails: the store holds an entry for the path and the get
    fails with an I/O error; the result is NULL, as it is in a world
    where the get works and there is no entry. *)
Lemma get_failure_looks_like_miss :
  ~ get_failure_distinct_from_miss Sample.path
      (Sample.w_cached Sample.env_get_fails 100 []) Sample.w_empty.
Proof.
  intros H. apply H; [by eexists | reflexivity | reflexivity |].
  vm_compute. reflexivity.
Qed.

(** C6, amended: a get that fails with an error of the store, whatever
    the error, returns NULL after the one call of [leveldb_get]; this is
    the result of a get that finds no entry.  The resolver goes on as for
    a path without entry: it is not fresh, and the request loop is
    entered with no ETag to match. *)
Theorem get_failure_returned_as_miss cache_path path w msg :
  db_get_err (env w) = Some msg ->
  ldb_filecache_pdata_get path w
    = Some (None, set_trace (trace w ++ [EvDbGet (path2key path)]) w) /\
  (forall w0,
     db_get_err (env w0) = None ->
     db w0 !! path2key path = None ->
     fst <$> ldb_filecache_pdata_get path w0
       = fst <$> ldb_filecache_pdata_get path w) /\
  ldb_get_fresh_fd cache_path path w =
    (if request_ok (env w)
     then request_loop (responses w) cache_path path None
     else ret (-1))
      (set_trace (trace w ++ [EvDbGet (path2key path)]) w).
Proof.
  intros Herr.
  assert (Hget : ldb_filecache_pdata_get path w
            = Some (None, set_trace (trace w ++ [EvDbGet (path2key path)]) w)).
  { unfold ldb_filecache_pdata_get, leveldb_get. unfold_monad. simpl.
    by rewrite Herr. }
  split_and!; [done | |].
  - intros w0 Hok Hmiss. rewrite Hget.
    unfold ldb_filecache_pdata_get, leveldb_get. unfold_monad. simpl.
    by rewrite Hok, Hmiss.
  - unfold ldb_get_fresh_fd. rewrite (bind_run _ _ _ _ _ Hget).
    unfold_monad. simpl. by destruct (request_ok (env w)).
Qed.

Lemma get_failure_returned_as_miss_witness :
  let w := Sample.w_cached Sample.env_get_fails 100 [] in
  db_get_err (env w) = Some "IO error: lock" /\
  ldb_filecache_pdata_get Sample.path w
    = Some (None, set_trace (trace w ++ [EvDbGet (path2key Sample.path)]) w) /\
  fst <$> ldb_filecache_pdata_get Sample.path Sample.w_empty
    = fst <$> ldb_filecache_pdata_get Sample.path w.
Proof.
  destruct (get_failure_returned_as_miss Sample.cache_path Sample.path
              (Sample.w_cached Sample.env_get_fails 100 []) "IO error: lock"
              eq_refl) as (Hget & Hsame & _).
  split_and!; [reflexivity | exact Hget |].
  apply Hsame; reflexivity.
Defined.



(** ** The store adapter *)

Lemma path2key_inj path path' : path2key path = path2key path' -> path = path'.
Proof. unfold path2key. intros H. by simplify_eq/=. Qed.

Lemma ldb_filecache_pdata_get_run path w :
  db_get_err (env w) = None ->
  ldb_filecache_pdata_get path w
    = Some (db w !! path2key path,
            set_trace (trace w ++ [EvDbGet (path2key path)]) w).
Proof.
  intros Herr. unfold ldb_filecache_pdata_get, leveldb_get. unfold_monad. simpl.
  rewrite Herr. simpl. by destruct (db w !! path2key path).
Qed.

Lemma ldb_filecache_pdata_set_run path pd w :
  ldb_filecache_pdata_set path (Some pd) w =
    match db_put_err (env w) with
    | Some _ =>
        Some (-1, set_trace (trace w ++ [EvDbPut (path2key path) pd]) w)
    | None =>
        Some (0, set_db (<[path2key path := pd]> (db w))
                   (set_trace (trace w ++ [EvDbPut (path2key path) pd]) w))
    end.
Proof.
  unfold ldb_filecache_pdata_set, leveldb_put. unfold_monad. simpl.
  by destruct (db_put_err (env w)).
Qed.

(** X1: putting an entry and getting it back.  The put returns 0 exactly
    when the store reports no error; then a get of the same path returns
    the entry that was put and the entries of all other paths are as
    before.  When the store reports an error the put returns -1 and the
    store is unchanged.  The put never touches the file system. *)
Theorem pdata_set_then_get path pd w :
  exists r w1,
    ldb_filecache_pdata_set path (Some pd) w = Some (r, w1) /\
    fs w1 = fs w /\
    (r = 0 <-> db_put_err (env w) = None) /\
    (r = 0 ->
     (db_get_err (env w) = None ->
      fst <$> ldb_filecache_pdata_get path w1 = Some (Some pd)) /\
     (forall path', path' <> path ->
        db w1 !! path2key path' = db w !! path2key path')) /\
    (r <> 0 -> r = -1 /\ db w1 = db w).
Proof.
  rewrite ldb_filecache_pdata_set_run.
  destruct (db_put_err (env w)) as [msg|] eqn:Hput.
  - eexists _, _. split; [reflexivity|]. simpl. split_and!; try done.
  - eexists _, _. split; [reflexivity|]. simpl. split_and!; try done.
    intros _. split.
    + intros Hget. rewrite ldb_filecache_pdata_get_run by done. simpl.
      by rewrite lookup_insert_eq.
    + intros path' Hne. rewrite lookup_insert_ne; [done|].
      intros Heq. by apply path2key_inj in Heq.
Qed.

Lemma pdata_set_then_get_witness :
  exists w1,
    ldb_filecache_pdata_set Sample.path
      (Some (mk_pdata Sample.new_name "v2" 100)) Sample.w_empty = Some (0, w1) /\
    fst <$> ldb_filecache_pdata_get Sample.path w1
      = Some (Some (mk_pdata Sample.new_name "v2" 100)).
Proof.
  destruct (pdata_set_then_get Sample.path (mk_pdata Sample.new_name "v2" 100)
              Sample.w_empty) as (r & w1 & Hrun & _ & Hr & Hok & _).
  assert (r = 0) as -> by (by apply Hr).
  exists w1. split; [done|]. by apply Hok.
Defined.

(** X2: deleting an entry.  With no error from the store the result is
    0, the path has no entry afterwards (whether it had one or not), the
    entries of other paths are as before, and a resolve of the path goes
    on as for a path never seen: the request loop is entered without an
    ETag.  With an error the result is -1 and the store is unchanged.
    Either way the file system is untouched: the local file of the entry
    is not unlinked and no descriptor is closed. *)
Theorem delete_forgets_entry fault cache_path path w :
  exists r w1,
    ldb_filecache_delete fault path w = Some (r, w1) /\
    fs w1 = fs w /\ heap w1 = heap w /\ env w1 = env w /\
    (r = 0 <-> fault = None) /\
    (r = 0 ->
     db w1 !! path2key path = None /\
     (forall path', path' <> path ->
        db w1 !! path2key path' = db w !! path2key path') /\
     (db_get_err (env w) = None ->
      ldb_get_fresh_fd cache_path path w1 =
        (if request_ok (env w)
         then request_loop (responses w) cache_path path None
         else ret (-1))
          (set_trace (trace w ++ [EvDbGet (path2key path)]) w1))) /\
    (r <> 0 -> r = -1 /\ db w1 = db w).
Proof.
  unfold ldb_filecache_delete, leveldb_delete.
  destruct fault as [msg|]; unfold_monad; simpl.
  - eexists _, _. split; [reflexivity|]. split_and!; try done.
  - eexists _, _. split; [reflexivity|]. simpl. split_and!; try done.
    intros _. split_and!.
    + by rewrite lookup_delete_eq.
    + intros path' Hne. rewrite lookup_delete_ne; [done|].
      intros Heq. by apply path2key_inj in Heq.
    + intros Hget. unfold ldb_get_fresh_fd.
      erewrite bind_run; [|by apply ldb_filecache_pdata_get_run].
      simpl. rewrite lookup_delete_eq. unfold_monad. simpl.
      by destruct (request_ok (env w)).
Qed.

Lemma delete_forgets_entry_witness :
  let w := Sample.w_cached Sample.env_ok 100 [] in
  exists w1,
    ldb_filecache_delete None Sample.path w = Some (0, w1) /\
    db w !! path2key Sample.path = Some (mk_pdata Sample.old_name "v1" 100) /\
    db w1 !! path2key Sample.path = None /\
    dir (fs w1) !! Sample.old_name = Some 1.
Proof.
  destruct (delete_forgets_entry None Sample.cache_path Sample.path
              (Sample.w_cached Sample.env_ok 100 []))
    as (r & w1 & Hrun & Hfs & _ & _ & Hr & Hok & _).
  assert (r = 0) as -> by (by apply Hr).
  exists w1. split_and!; [done | reflexivity | by apply Hok |].
  rewrite Hfs. reflexivity.
Defined.

(** ** Reading and writing through a session *)


(** A write of no bytes changes nothing; a write of some bytes extends
    the file where it ends beyond it. *)
Lemma write_at_empty (old : list byte) (off : nat) : write_at old off [] = old.
Proof. reflexivity. Qed.





(** X4: the two ways a write through a writable session fails.  At a
    negative offset it returns -EINVAL, whatever the descriptor: the
    offset is examined first.  At another offset, through a descriptor
    that is not open for writing (it is closed, or it was opened for
    reading only), it returns -EBADF.  In both cases the session is not
    marked modified and no file changes. *)
Theorem write_needs_writable_descriptor info buf size offset w sd :
  heap w !! fh info = Some sd ->
  sd_writable sd = true ->
  offset < 0 \/
    (forall o, fdtab (fs w) !! sd_fd sd = Some o -> of_wr o = false) ->
  exists w',
    ldb_filecache_write info buf size offset w
      = Some (- (if offset <? 0 then EINVAL else EBADF), w') /\
    heap w' = heap w /\
    fs w' = fs w /\
    trace w' = trace w ++ [EvPwrite (sd_fd sd) offset (take size buf)].
Proof.
  intros Hsd Hw Hbad. unfold ldb_filecache_write.
  rewrite (bind_run _ _ _ _ _ (load_sdata_Some _ _ _ Hsd)), Hw. simpl.
  unfold sys_pwrite. unfold_monad. simpl.
  destruct (Z.ltb_spec offset 0) as [Hneg|Hpos]; simpl; [by eexists|].
  destruct Hbad as [|Hro]; [lia|].
  destruct (fdtab (fs w) !! sd_fd sd) as [o|] eqn:Ho; simpl.
  - rewrite (Hro o eq_refl). simpl. by eexists.
  - by eexists.
Qed.

Lemma write_needs_writable_descriptor_witness :
  let w := set_fs (Sample.cached_fs
                     (<[3 := mk_ofd 1 0 true false]> Sample.stdio))
             (Sample.w_session Sample.env_ok (Sample.handle true true false)) in
  (exists w',
     ldb_filecache_write (mk_info O_RDWR 1) Sample.hello 5 0 w
       = Some (-9, w') /\
     heap w' = heap w) /\
  (exists w',
     ldb_filecache_write (mk_info O_RDWR 1) Sample.hello 5 (-1) w
       = Some (-22, w') /\
     heap w' = heap w).
Proof.
  split.
  - destruct (write_needs_writable_descriptor (mk_info O_RDWR 1) Sample.hello
                5 0
                (set_fs (Sample.cached_fs
                           (<[3 := mk_ofd 1 0 true false]> Sample.stdio))
                   (Sample.w_session Sample.env_ok
                      (Sample.handle true true false)))
                (Sample.handle true true false))
      as (w' & Hrun & Hheap & _); [reflexivity | reflexivity | |].
    + right. intros o Ho. vm_compute in Ho. by injection Ho as <-.
    + exists w'. split; done.
  - destruct (write_needs_writable_descriptor (mk_info O_RDWR 1) Sample.hello
                5 (-1)
                (set_fs (Sample.cached_fs
                           (<[3 := mk_ofd 1 0 true false]> Sample.stdio))
                   (Sample.w_session Sample.env_ok
                      (Sample.handle true true false)))
                (Sample.handle true true false))
      as (w' & Hrun & Hheap & _); [reflexivity | reflexivity | |].
    + left. lia.
    + exists w'. split; done.
Defined.




(** X6: the two ways a read through a session fails.  At a negative
    offset it returns -EINVAL, whatever the descriptor, open or closed:
    the offset is examined first.  At another offset, through a
    descriptor that is closed or not open for reading, it returns
    -EBADF.  No bytes are delivered and nothing but [errno] changes. *)
Theorem read_failures info size offset w sd :
  heap w !! fh info = Some sd ->
  offset < 0 \/
    (forall o, fdtab (fs w) !! sd_fd sd = Some o -> of_rd o = false) ->
  ldb_filecache_read info size offset w
    = Some ((- (if offset <? 0 then EINVAL else EBADF), []),
            set_errno (if offset <? 0 then EINVAL else EBADF) w).
Proof.
  intros Hsd Hbad. unfold ldb_filecache_read.
  rewrite (bind_run _ _ _ _ _ (load_sdata_Some _ _ _ Hsd)).
  unfold sys_pread. unfold_monad. simpl.
  destruct (Z.ltb_spec offset 0) as [Hneg|Hpos]; simpl; [done|].
  destruct Hbad as [|Hno]; [lia|].
  destruct (fdtab (fs w) !! sd_fd sd) as [o|] eqn:Ho; simpl; [|done].
  by rewrite (Hno o eq_refl).
Qed.

Lemma read_failures_witness :
  let w := set_fs (Sample.cached_fs Sample.stdio)
             (Sample.w_session Sample.env_ok (Sample.handle true false false)) in
  fdtab (fs w) !! 3 = None /\
  ldb_filecache_read Sample.info_session 5 (-1) w
    = Some ((-22, []), set_errno EINVAL w) /\
  ldb_filecache_read Sample.info_session 5 0 w
    = Some ((-9, []), set_errno EBADF w).
Proof.
  split; [reflexivity|]. split.
  - apply (read_failures Sample.info_session 5 (-1)
             (set_fs (Sample.cached_fs Sample.stdio)
                (Sample.w_session Sample.env_ok
                   (Sample.handle true false false)))
             (Sample.handle true false false) eq_refl).
    left. lia.
  - apply (read_failures Sample.info_session 5 0
             (set_fs (Sample.cached_fs Sample.stdio)
                (Sample.w_session Sample.env_ok
                   (Sample.handle true false false)))
             (Sample.handle true false false) eq_refl).
    right. intros o Ho. vm_compute in Ho. discriminate.
Defined.



(** ** Truncating *)



(** ** Sync and release, continued *)

(** Whatever sync returns, the heap is as before. *)
Lemma ldb_filecache_sync_heap path info w r w' :
  ldb_filecache_sync path info w = Some (r, w') -> heap w' = heap w.
Proof.
  unfold ldb_filecache_sync. intros H.
  apply bind_inv in H as (sd & w0 & Hload & H).
  apply load_sdata_inv in Hload as [-> Hsd].
  revert H. unfold_sync. unfold_monad. simpl.
  repeat (case_match; simpl); intros; simplify_eq/=; done.
Qed.

(** X9: what sync never does.  Whatever the state of the session and
    whatever the result, which is 0 or -1, sync leaves the leveldb store
    as it is (no entry gets a new ETag or revalidation time after an
    upload), keeps the session data as it is (the modified flag
    included), changes no file and no directory entry, and closes no
    descriptor.  When the result is -1 the stat cache is unchanged
    too. *)
Theorem sync_keeps_store_and_files path info w r w' :
  ldb_filecache_sync path info w = Some (r, w') ->
  (r = 0 \/ r = -1) /\
  db w' = db w /\
  heap w' = heap w /\
  dir (fs w') = dir (fs w) /\
  inodes (fs w') = inodes (fs w) /\
  (forall fd o, fdtab (fs w) !! fd = Some o ->
     exists o', fdtab (fs w') !! fd = Some o' /\ of_ino o' = of_ino o) /\
  (r = -1 -> statcache w' = statcache w).
Proof.
  unfold ldb_filecache_sync. intros H.
  apply bind_inv in H as (sd & w0 & Hload & H).
  apply load_sdata_inv in Hload as [-> Hsd].
  revert H. unfold_sync. unfold_monad. simpl.
  destruct (sd_writable sd); simpl;
    [|intros [= <- <-]; split_and!; eauto].
  destruct (sd_modified sd); simpl;
    [|intros [= <- <-]; split_and!; eauto].
  destruct (fdtab (fs w) !! sd_fd sd) as [o0|] eqn:Ho; simpl;
    [|intros [= <- <-]; split_and!; eauto].
  assert (Hkeep : forall pos1 pos2 fd o,
            fdtab (fs w) !! fd = Some o ->
            (exists o', <[sd_fd sd := mk_ofd (of_ino o0) pos1 (of_rd o0) (of_wr o0)]>
                          (fdtab (fs w)) !! fd = Some o' /\ of_ino o' = of_ino o) /\
            (exists o', <[sd_fd sd := mk_ofd (of_ino o0) pos2 (of_rd o0) (of_wr o0)]>
                          (<[sd_fd sd := mk_ofd (of_ino o0) pos1 (of_rd o0) (of_wr o0)]>
                             (fdtab (fs w))) !! fd = Some o' /\
                        of_ino o' = of_ino o)).
  { intros pos1 pos2 fd o Hfd. destruct (decide (fd = sd_fd sd)) as [->|Hne].
    - rewrite !lookup_insert_eq. assert (o = o0) as -> by congruence.
      split; by eexists.
    - rewrite !lookup_insert_ne by done. split; by eexists. }
  destruct (session_ok (env w)); simpl;
    [|intros [= <- <-]; split_and!; try done; eauto;
      intros fd o Hfd; by apply (Hkeep 0%nat 0%nat)].
  rewrite lookup_insert_eq. simpl.
  destruct (put_ok (env w)); simpl.
  - rewrite lookup_insert_eq. simpl. intros [= <- <-]. simpl.
    split_and!; try done; eauto.
    intros fd o Hfd. by apply (Hkeep 0%nat).
  - intros [= <- <-]. simpl. split_and!; try done; eauto.
    intros fd o Hfd. by apply (Hkeep 0%nat 0%nat).
Qed.

Lemma sync_keeps_store_and_files_witness :
  let w := Sample.w_session Sample.env_put_fails (Sample.handle true true true) in
  exists w',
    ldb_filecache_sync Sample.path Sample.info_session w = Some (-1, w') /\
    db w' = db w /\ heap w' = heap w /\ inodes (fs w') = inodes (fs w) /\
    statcache w' = statcache w.
Proof.
  assert (Hrun : exists w',
            ldb_filecache_sync Sample.path Sample.info_session
              (Sample.w_session Sample.env_put_fails
                 (Sample.handle true true true)) = Some (-1, w'))
    by (eexists; vm_compute; reflexivity).
  destruct Hrun as [w' Hrun]. exists w'. split; [exact Hrun|].
  destruct (sync_keeps_store_and_files _ _ _ _ _ Hrun)
    as (_ & Hdb & Hheap & _ & Hino & _ & Hst).
  split; [exact Hdb|]. split; [exact Hheap|]. split; [exact Hino|].
  exact (Hst eq_refl).
Defined.

(** X10: sync of a writable, modified session whose descriptor is open,
    with a session at hand and a server that accepts the upload, returns
    0.  The body of the one PUT is the whole file, wherever the offset of
    the descriptor was.  The attributes then published for the path are
    those of a regular file with mode 0660, one link, the length of the
    file as size and the current time in all three time stamps.  The
    descriptor is left at the end of the file. *)
Theorem sync_uploads_whole_file path info w sd o :
  heap w !! fh info = Some sd ->
  sd_writable sd = true ->
  sd_modified sd = true ->
  fdtab (fs w) !! sd_fd sd = Some o ->
  session_ok (env w) = true ->
  put_ok (env w) = true ->
  exists w' st,
    ldb_filecache_sync path info w = Some (0, w') /\
    trace w' = trace w ++
      [EvLseek (sd_fd sd);
       EvHttpPut path (default [] (inodes (fs w) !! of_ino o));
       EvLseek (sd_fd sd);
       EvStatSet path st] /\
    statcache w' !! path = Some st /\
    st_size st = Z.of_nat (length (default [] (inodes (fs w) !! of_ino o))) /\
    st_mode st = 33200 /\ st_nlink st = 1 /\
    st_atime st = clock (env w) /\ st_mtime st = clock (env w) /\
    st_ctime st = clock (env w) /\
    st_uid st = uid (env w) /\ st_gid st = gid (env w) /\
    prepopulated st = false /\
    fdtab (fs w') !! sd_fd sd =
      Some (mk_ofd (of_ino o)
              (length (default [] (inodes (fs w) !! of_ino o)))
              (of_rd o) (of_wr o)).
Proof.
  intros Hsd Hw Hm Ho Hs Hp.
  unfold ldb_filecache_sync.
  rewrite (bind_run _ _ _ _ _ (load_sdata_Some _ _ _ Hsd)), Hw, Hm. simpl.
  unfold_sync. unfold_monad. simpl.
  rewrite Ho. simpl. rewrite Hs. simpl.
  rewrite lookup_insert_eq. simpl. rewrite Hp. simpl.
  rewrite lookup_insert_eq. simpl.
  eexists _, (synthetic_stat
                (Z.of_nat (length (default [] (inodes (fs w) !! of_ino o))))
                (clock (env w)) (env w)).
  split; [reflexivity|]. simpl.
  split_and!; try reflexivity.
  - by rewrite <- !app_assoc.
  - by rewrite lookup_insert_eq.
  - by rewrite lookup_insert_eq.
Qed.

Lemma sync_uploads_whole_file_witness :
  let w := Sample.w_session Sample.env_ok (Sample.handle false true true) in
  exists w' st,
    ldb_filecache_sync Sample.path Sample.info_session w = Some (0, w') /\
    trace w' =
      [EvLseek 3; EvHttpPut Sample.path Sample.hello; EvLseek 3;
       EvStatSet Sample.path st] /\
    statcache w' !! Sample.path = Some st /\
    st_size st = 5.
Proof.
  destruct (sync_uploads_whole_file Sample.path Sample.info_session
              (Sample.w_session Sample.env_ok (Sample.handle false true true))
              (Sample.handle false true true) (mk_ofd 1 0 true true))
    as (w' & st & Hrun & Htr & Hst & Hsize & _);
    [reflexivity | reflexivity | reflexivity | reflexivity | reflexivity
    | reflexivity |].
  exists w', st. split; [exact Hrun|]. split; [exact Htr|].
  split; [exact Hst|]. exact Hsize.
Defined.

(** X11: the three ways a sync of a writable, modified session fails,
    each with result -1.  With the descriptor closed the seek fails and
    nothing else is tried.  Without a session [errno] is EIO and no
    request is made.  When the server refuses the upload [errno] is
    ENOENT.  In no case are attributes published. *)
Theorem sync_failures path info w sd :
  heap w !! fh info = Some sd ->
  sd_writable sd = true ->
  sd_modified sd = true ->
  (fdtab (fs w) !! sd_fd sd = None ->
   exists w',
     ldb_filecache_sync path info w = Some (-1, w') /\
     trace w' = trace w ++ [EvLseek (sd_fd sd)] /\
     errno w' = EBADF /\ statcache w' = statcache w) /\
  (forall o, fdtab (fs w) !! sd_fd sd = Some o ->
   session_ok (env w) = false ->
   exists w',
     ldb_filecache_sync path info w = Some (-1, w') /\
     trace w' = trace w ++ [EvLseek (sd_fd sd)] /\
     errno w' = EIO /\ statcache w' = statcache w) /\
  (forall o, fdtab (fs w) !! sd_fd sd = Some o ->
   session_ok (env w) = true ->
   put_ok (env w) = false ->
   exists w',
     ldb_filecache_sync path info w = Some (-1, w') /\
     trace w' = trace w ++
       [EvLseek (sd_fd sd);
        EvHttpPut path (default [] (inodes (fs w) !! of_ino o))] /\
     errno w' = ENOENT /\ statcache w' = statcache w).
Proof.
  intros Hsd Hw Hm.
  unfold ldb_filecache_sync.
  rewrite (bind_run _ _ _ _ _ (load_sdata_Some _ _ _ Hsd)), Hw, Hm. simpl.
  unfold_sync. unfold_monad. simpl.
  split_and!.
  - intros ->. simpl. by eexists.
  - intros o -> Hs. simpl. rewrite Hs. simpl. by eexists.
  - intros o -> Hs Hp. simpl. rewrite Hs. simpl.
    rewrite lookup_insert_eq. simpl. rewrite Hp. simpl.
    eexists. split; [reflexivity|]. simpl. by rewrite <- app_assoc.
Qed.

Lemma sync_failures_witness :
  let w := Sample.w_session Sample.env_put_fails (Sample.handle true true true) in
  exists w',
    ldb_filecache_sync Sample.path Sample.info_session w = Some (-1, w') /\
    trace w' = [EvLseek 3; EvHttpPut Sample.path Sample.hello] /\
    errno w' = ENOENT.
Proof.
  destruct (sync_failures Sample.path Sample.info_session
              (Sample.w_session Sample.env_put_fails
                 (Sample.handle true true true))
              (Sample.handle true true true) eq_refl eq_refl eq_refl)
    as (_ & _ & H).
  destruct (H (mk_ofd 1 0 true true) eq_refl eq_refl eq_refl)
    as (w' & Hrun & Htr & Herr & _).
  exists w'. split; [exact Hrun|]. split; [exact Htr|]. exact Herr.
Defined.

(** [ldb_filecache_close] on session data whose descriptor is open. *)
Lemma ldb_filecache_close_run a w sd o :
  heap w !! a = Some sd ->
  fdtab (fs w) !! sd_fd sd = Some o ->
  0 <= sd_fd sd ->
  ldb_filecache_close a w =
    Some (0, set_fs (mk_fs (dir (fs w)) (inodes (fs w))
                       (delete (sd_fd sd) (fdtab (fs w))))
               (set_trace (trace w ++ [EvClose (sd_fd sd)]) w)).
Proof.
  intros Hsd Ho Hfd. unfold ldb_filecache_close.
  rewrite (bind_run _ _ _ _ _ (load_sdata_Some _ _ _ Hsd)).
  destruct (Z.geb_spec (sd_fd sd) 0); [|lia].
  unfold sys_close. unfold_monad. simpl. by rewrite Ho.
Qed.

(** X12: release of a session that is not writable, or not modified, and
    whose descriptor is open: the one call is the close of the
    descriptor and the result is 0.  Afterwards the descriptor is closed
    and the other descriptors, the files and the store are as before.
    The session data is not freed: it stays in the heap as it was, and a
    read through the released session fails, with -EBADF, or with
    -EINVAL when the offset is negative. *)
Theorem release_closes_descriptor path info w sd o size offset :
  heap w !! fh info = Some sd ->
  sd_writable sd = false \/ sd_modified sd = false ->
  fdtab (fs w) !! sd_fd sd = Some o ->
  0 <= sd_fd sd ->
  exists w',
    ldb_filecache_release path info w = Some (0, w') /\
    trace w' = trace w ++ [EvClose (sd_fd sd)] /\
    fdtab (fs w') = delete (sd_fd sd) (fdtab (fs w)) /\
    inodes (fs w') = inodes (fs w) /\
    dir (fs w') = dir (fs w) /\
    db w' = db w /\
    heap w' = heap w /\
    ldb_filecache_read info size offset w'
      = Some ((- (if offset <? 0 then EINVAL else EBADF), []),
              set_errno (if offset <? 0 then EINVAL else EBADF) w').
Proof.
  intros Hsd Hflag Ho Hfd.
  assert (Hsync : ldb_filecache_sync path info w = Some (0, w)).
  { unfold ldb_filecache_sync.
    rewrite (bind_run _ _ _ _ _ (load_sdata_Some _ _ _ Hsd)).
    destruct Hflag as [-> | ->]; [done|]. by destruct (sd_writable sd). }
  rewrite (release_sync_done _ _ _ _ _ _ Hsd Hsync) by lia.
  rewrite (bind_run _ _ _ _ _ (ldb_filecache_close_run _ _ _ _ Hsd Ho Hfd)).
  eexists. split; [reflexivity|]. simpl. split_and!; try done.
  unfold ldb_filecache_read.
  erewrite bind_run; [|by apply load_sdata_Some].
  unfold sys_pread. unfold_monad. simpl.
  destruct (offset <? 0); [done|]. simpl. by rewrite lookup_delete_eq.
Qed.

Lemma release_closes_descriptor_witness :
  let w := Sample.w_session Sample.env_ok (Sample.handle true true false) in
  exists w',
    ldb_filecache_release Sample.path Sample.info_session w = Some (0, w') /\
    trace w' = [EvClose 3] /\
    heap w' !! 1 = Some (Sample.handle true true false) /\
    ldb_filecache_read Sample.info_session 5 0 w'
      = Some ((-9, []), set_errno EBADF w').
Proof.
  destruct (release_closes_descriptor Sample.path Sample.info_session
              (Sample.w_session Sample.env_ok (Sample.handle true true false))
              (Sample.handle true true false) (mk_ofd 1 0 true true) 5 0)
    as (w' & Hrun & Htr & _ & _ & _ & _ & Hheap & Hread);
    [reflexivity | by right | reflexivity | simpl; lia |].
  exists w'. split; [exact Hrun|]. split; [exact Htr|].
  split; [by rewrite Hheap|]. exact Hread.
Defined.

(** ** From create to release *)

Lemma write_at_nil (data : list byte) : write_at [] 0 data = data.
Proof.
  unfold write_at. destruct data as [|b data]; [done|].
  rewrite take_nil, drop_nil, app_nil_r. done.
Qed.

(** Two worlds with the same components are the same. *)
Lemma world_eq (w1 w2 : world) :
  env w1 = env w2 -> fs w1 = fs w2 -> tmp_supply w1 = tmp_supply w2 ->
  responses w1 = responses w2 -> db w1 = db w2 ->
  statcache w1 = statcache w2 -> heap w1 = heap w2 -> errno w1 = errno w2 ->
  trace w1 = trace w2 -> w1 = w2.
Proof. destruct w1, w2. simpl. by intros -> -> -> -> -> -> -> -> ->. Qed.

(** The world after a sync that uploads. *)
Lemma ldb_filecache_sync_run path info w sd o :
  heap w !! fh info = Some sd ->
  sd_writable sd = true ->
  sd_modified sd = true ->
  fdtab (fs w) !! sd_fd sd = Some o ->
  session_ok (env w) = true ->
  put_ok (env w) = true ->
  let content := default [] (inodes (fs w) !! of_ino o) in
  let st := synthetic_stat (Z.of_nat (length content)) (clock (env w)) (env w) in
  ldb_filecache_sync path info w =
    Some (0,
      set_statcache (<[path := st]> (statcache w))
        (set_trace
           (trace w ++ [EvLseek (sd_fd sd); EvHttpPut path content;
                        EvLseek (sd_fd sd); EvStatSet path st])
           (set_fs
              (mk_fs (dir (fs w)) (inodes (fs w))
                 (<[sd_fd sd := mk_ofd (of_ino o) (length content)
                                  (of_rd o) (of_wr o)]>
                    (<[sd_fd sd := mk_ofd (of_ino o) 0 (of_rd o) (of_wr o)]>
                       (fdtab (fs w)))))
              w))).
Proof.
  intros Hsd Hw Hm Ho Hs Hp.
  unfold ldb_filecache_sync.
  rewrite (bind_run _ _ _ _ _ (load_sdata_Some _ _ _ Hsd)), Hw, Hm. simpl.
  unfold_sync. unfold_monad. simpl.
  rewrite Ho. simpl. rewrite Hs. simpl.
  rewrite lookup_insert_eq. simpl. rewrite Hp. simpl.
  rewrite lookup_insert_eq.
  do 2 f_equal. apply world_eq; simpl; try reflexivity.
  by rewrite <- !app_assoc.
Qed.

(** What a successful [new_cache_file] leaves in the file system. *)
Lemma new_cache_file_created_fs cache_path w name fd w1 :
  new_cache_file cache_path w = Some ((0, name, fd), w1) ->
  exists ino,
    dir (fs w) !! name = None /\
    fs w1 = mk_fs (<[name := ino]> (dir (fs w)))
                  (<[ino := []]> (inodes (fs w)))
                  (<[fd := mk_ofd ino 0 true true]> (fdtab (fs w))) /\
    ino = lowest_free 1 (inodes (fs w)) /\
    fd = lowest_free 0 (fdtab (fs w)).
Proof.
  unfold new_cache_file.
  generalize (substring 0 (PATH_MAX - 1)
                (cache_path +:+ "/files/fusedav-cache-XXXXXX")).
  intros template H.
  apply bind_inv in H as ([fd0 name0] & w0 & Hmk & H).
  destruct (Z.ltb_spec fd0 0); unfold ret, mret, M_ret in H; simplify_eq.
  revert Hmk. unfold mkstemp.
  destruct (is_template _); simpl.
  - unfold_monad. simpl.
    destruct (mkstemp_attempts _ _ _ _) as [[[] name'] rest] eqn:Hatt; simpl;
      intros [= <- <- <-]; [|lia].
    apply mkstemp_attempts_found in Hatt as [Hfree _]. simpl. eauto.
  - unfold_monad. simpl. intros [= <- <- <-]. lia.
Qed.

(** A replace-open that gets its new file with a descriptor above 0. *)
Lemma replace_open_run cache_path path info w name fd w1 :
  session_ok (env w) = true ->
  malloc_ok (env w) = true ->
  new_cache_file cache_path w = Some ((0, name, fd), w1) ->
  0 < fd ->
  exists w',
    ldb_filecache_open cache_path path info true w
      = Some ((0, mk_info (flags info) (lowest_free 1 (heap w))), w') /\
    env w' = env w /\ fs w' = fs w1 /\ db w' = db w /\
    statcache w' =
      <[path := synthetic_stat 0 (clock (env w)) (env w)]> (statcache w) /\
    trace w' = trace w ++
      [EvMkstemp name fd;
       EvStatSet path (synthetic_stat 0 (clock (env w)) (env w))] /\
    heap w' !! lowest_free 1 (heap w) =
      Some (mk_sdata fd name (readable_requested (flags info))
              (writable_requested (flags info)) true).
Proof.
  intros Hs Hm Hncf Hfd.
  pose proof (lowest_free_ge 1 (heap w)) as Hge.
  set (a := lowest_free 1 (heap w)) in *.
  assert (Ha : a <> 0) by lia.
  destruct (new_cache_file_created _ _ _ _ _ Hncf)
    as (_ & He1 & Hh1 & Hst1 & Hdb1 & _ & Htr1).
  set (sd := mk_sdata fd name false false true).
  set (w2 := set_statcache
               (<[path := synthetic_stat 0 (clock (env w)) (env w)]> (statcache w))
               (set_trace (trace w1 ++
                   [EvStatSet path (synthetic_stat 0 (clock (env w)) (env w))])
                 (set_heap (<[a := sd]> (heap w)) w1))).
  assert (Hobtain : exists h,
            open_obtain_fd cache_path path true a
              (set_heap (<[a := zero_sdata]> (heap w)) w)
            = Some (true, set_heap h w2) /\ h !! a = Some sd).
  { unfold open_obtain_fd.
    erewrite bind_run; [|by apply store_sdata_Some, lookup_insert_eq].
    erewrite bind_run; [|by rewrite !new_cache_file_set_heap, Hncf].
    cbv beta iota.
    erewrite bind_run; [|by apply store_sdata_Some, lookup_insert_eq].
    erewrite bind_run; [|by apply store_sdata_Some, lookup_insert_eq].
    unfold sys_time, stat_cache_value_set. unfold_monad. simpl.
    rewrite He1, Hst1. eexists. split; [reflexivity|].
    simpl. by rewrite lookup_insert_eq. }
  destruct Hobtain as (h & Hobtain & Hh).
  destruct (open_install_run info a sd (set_heap h w2) Hh Ha)
    as (w' & He & Hfs & Hst & Hdb & Hrun).
  simpl in Hrun. destruct (Z.gtb_spec fd 0) as [_|]; [|lia].
  destruct Hrun as (Hrun & Hheap & Htr).
  exists w'. split_and!.
  - by rewrite (ldb_filecache_open_run _ _ info _ _ _ _ Hs Hm Hobtain).
  - by rewrite He.
  - by rewrite Hfs.
  - by rewrite Hdb.
  - by rewrite Hst.
  - rewrite Htr. simpl. rewrite Htr1. by rewrite <- app_assoc.
  - done.
Qed.



(** ** The resolver, continued *)

(** [open] of a name that is there, and of one that is not. *)
Lemma sys_open_run name w :
  sys_open name w =
    match dir (fs w) !! name with
    | Some ino =>
        Some (lowest_free 0 (fdtab (fs w)),
              set_trace (trace w ++ [EvOpen name (lowest_free 0 (fdtab (fs w)))])
                (set_fs (mk_fs (dir (fs w)) (inodes (fs w))
                           (<[lowest_free 0 (fdtab (fs w)) := mk_ofd ino 0 true false]>
                              (fdtab (fs w)))) w))
    | None =>
        Some (-1, set_trace (trace w ++ [EvOpen name (-1)]) (set_errno ENOENT w))
    end.
Proof.
  unfold sys_open. unfold_monad. simpl. by destruct (dir (fs w) !! name).
Qed.

(** The resolver on a path of which the lookup finds nothing. *)
Lemma ldb_get_fresh_fd_cold cache_path path w :
  is_Some (db_get_err (env w)) \/ db w !! path2key path = None ->
  ldb_get_fresh_fd cache_path path w =
    (if request_ok (env w)
     then request_loop (responses w) cache_path path None
     else ret (-1))
      (set_trace (trace w ++ [EvDbGet (path2key path)]) w).
Proof.
  intros Hcold.
  assert (Hget : ldb_filecache_pdata_get path w
            = Some (None, set_trace (trace w ++ [EvDbGet (path2key path)]) w)).
  { unfold ldb_filecache_pdata_get, leveldb_get. unfold_monad. simpl.
    destruct (db_get_err (env w)) as [msg|] eqn:Herr; simpl; [done|].
    destruct Hcold as [[? [=]]| ->]. done. }
  unfold ldb_get_fresh_fd. rewrite (bind_run _ _ _ _ _ Hget).
  unfold_monad. simpl. by destruct (request_ok (env w)).
Qed.

(** X14: revalidation.  For a path whose entry is stale (its age, the
    difference of the two time stamps as the code computes it in 64 bits,
    is more than REFRESH_INTERVAL), when the server answers the request,
    sent with the ETag of the entry, with 304: the entry is put back with
    the same file name and ETag and the current time, and the file of the
    entry is opened; the result is the result of that open.  No file is created or unlinked and no file changes.
    The result of the put is ignored: if the store refuses it, the store
    is unchanged and the descriptor is returned all the same. *)
Theorem revalidation_keeps_file cache_path path w pd r rest :
  db_get_err (env w) = None ->
  db w !! path2key path = Some pd ->
  REFRESH_INTERVAL < time_t_sub (clock (env w)) (pd_last_server_update pd) ->
  request_ok (env w) = true ->
  responses w = r :: rest ->
  r_begin r = NE_OK ->
  r_code r = 304 ->
  exists fd w',
    ldb_get_fresh_fd cache_path path w = Some (fd, w') /\
    trace w' = trace w ++
      [EvDbGet (path2key path);
       EvHttpGet path (Some (pd_etag pd));
       EvDbPut (path2key path)
         (mk_pdata (pd_filename pd) (pd_etag pd) (clock (env w)));
       EvOpen (pd_filename pd) fd] /\
    responses w' = rest /\
    dir (fs w') = dir (fs w) /\
    inodes (fs w') = inodes (fs w) /\
    (db_put_err (env w) = None ->
     db w' = <[path2key path :=
                 mk_pdata (pd_filename pd) (pd_etag pd) (clock (env w))]> (db w)) /\
    (is_Some (db_put_err (env w)) -> db w' = db w) /\
    (dir (fs w) !! pd_filename pd = None -> fd = -1) /\
    (forall ino,
       dir (fs w) !! pd_filename pd = Some ino ->
       0 <= fd /\
       fdtab (fs w) !! fd = None /\
       fdtab (fs w') !! fd = Some (mk_ofd ino 0 true false)).
Proof.
  intros Herr Hpd Hstale Hreq Hresp Hbegin Hcode.
  rewrite (ldb_get_fresh_fd_stale _ _ _ _ Herr Hpd Hstale Hreq), Hresp.
  cbn [request_loop]. rewrite Hbegin, Hcode.
  change (negb (NE_OK =? NE_OK)) with false.
  change (304 =? 304) with true. cbv iota.
  unfold sys_time, ldb_filecache_pdata_set, leveldb_put, sys_open.
  unfold_monad. simpl.
  destruct (db_put_err (env w)) as [msg|] eqn:Hput; simpl;
    destruct (dir (fs w) !! pd_filename pd) as [ino|] eqn:Hdir; simpl;
    eexists _, _; (split; [reflexivity|]); simpl;
    rewrite <- ?app_assoc; simpl;
    (split_and!; try done;
     [intros [? [=]] || idtac ..]);
    try (intros ? [= <-]; split_and!;
         [apply lowest_free_ge | apply lowest_free_None
         | by rewrite lookup_insert_eq]).
Qed.

Lemma revalidation_keeps_file_witness :
  let w := Sample.w_cached Sample.env_ok 0 [Sample.not_modified] in
  exists fd w',
    ldb_get_fresh_fd Sample.cache_path Sample.path w = Some (fd, w') /\
    trace w' =
      [EvDbGet (path2key Sample.path);
       EvHttpGet Sample.path (Some "v1");
       EvDbPut (path2key Sample.path) (mk_pdata Sample.old_name "v1" 100);
       EvOpen Sample.old_name fd] /\
    db w' !! path2key Sample.path = Some (mk_pdata Sample.old_name "v1" 100).
Proof.
  destruct (revalidation_keeps_file Sample.cache_path Sample.path
              (Sample.w_cached Sample.env_ok 0 [Sample.not_modified])
              (mk_pdata Sample.old_name "v1" 0) Sample.not_modified [])
    as (fd & w' & Hrun & Htr & _ & _ & _ & Hdb & _ & _ & Hfd);
    [reflexivity | reflexivity | vm_compute; reflexivity | reflexivity
    | reflexivity | reflexivity | reflexivity |].
  exists fd, w'. split; [exact Hrun|]. split; [exact Htr|].
  rewrite (Hdb eq_refl). apply lookup_insert_eq.
Defined.

(** [new_cache_file] looks at the file system and at the supply of names
    only: where it succeeds in one world it succeeds in every world with
    the same two, with the same file and descriptor. *)
Lemma new_cache_file_created_at cache_path w name fd w1 w0 :
  new_cache_file cache_path w = Some ((0, name, fd), w1) ->
  fs w0 = fs w ->
  tmp_supply w0 = tmp_supply w ->
  new_cache_file cache_path w0 =
    Some ((0, name, fd),
          set_trace (trace w0 ++ [EvMkstemp name fd])
            (set_tmp_supply (tmp_supply w1) (set_fs (fs w1) w0))).
Proof.
  unfold new_cache_file.
  generalize (substring 0 (PATH_MAX - 1)
                (cache_path +:+ "/files/fusedav-cache-XXXXXX")).
  intros template H Hfs Htmp.
  apply bind_inv in H as ([fd0 name0] & w2 & Hmk & H).
  destruct (Z.ltb_spec fd0 0) as [|Hfd]; unfold ret, mret, M_ret in H;
    simplify_eq.
  assert (Hmk0 : mkstemp template w0 =
            Some ((fd, name),
                  set_trace (trace w0 ++ [EvMkstemp name fd])
                    (set_tmp_supply (tmp_supply w1) (set_fs (fs w1) w0)))).
  { revert Hmk. unfold mkstemp.
    destruct (is_template template); simpl.
    - unfold_monad. simpl. rewrite Htmp, Hfs.
      destruct (mkstemp_attempts _ _ _ _) as [[[] name'] rest]; simpl;
        intros [= <- <- <-]; [|lia].
      simpl. first [reflexivity | do 2 f_equal; by apply world_eq].
    - unfold_monad. simpl. intros [= <- <- <-]. lia. }
  rewrite (bind_run _ _ _ _ _ Hmk0).
  by destruct (Z.ltb_spec fd 0); [lia|].
Qed.

Lemma substring_length_le (n : nat) (s : string) :
  (String.length (substring 0 n s) <= n)%nat.
Proof.
  revert n. induction s as [|c s IH]; intros [|n]; simpl; try lia.
  specialize (IH n). lia.
Qed.

(** A complete transfer into a new, empty file. *)
Lemma ne_read_response_to_fd_complete r fd w ino :
  fdtab (fs w) !! fd = Some (mk_ofd ino 0 true true) ->
  inodes (fs w) !! ino = Some [] ->
  (length (r_body r) <= r_delivered r)%nat ->
  exists w3,
    ne_read_response_to_fd r fd w = Some (NE_OK, w3) /\
    env w3 = env w /\ heap w3 = heap w /\
    statcache w3 = statcache w /\ responses w3 = responses w /\
    db w3 = db w /\
    trace w3 = trace w ++ [EvReadBody fd true] /\
    dir (fs w3) = dir (fs w) /\
    inodes (fs w3) = <[ino := r_body r]> (inodes (fs w)) /\
    fdtab (fs w3) =
      <[fd := mk_ofd ino (length (r_body r)) true true]> (fdtab (fs w)).
Proof.
  intros Hfd Hino Hall.
  unfold ne_read_response_to_fd, sys_write.
  rewrite take_ge by done.
  destruct (decide (r_body r = [])) as [Hnil|Hbody].
  - rewrite Hnil. rewrite !bool_decide_eq_true_2 by done.
    unfold_monad. simpl.
    eexists. split; [reflexivity|]. simpl. split_and!; try done.
    + by rewrite insert_id.
    + by rewrite insert_id.
  - rewrite (bool_decide_eq_false_2 (r_body r = [])) by done.
    rewrite (bool_decide_eq_true_2 (r_body r = r_body r)) by done.
    unfold_monad. simpl. rewrite Hfd. simpl. rewrite Hino. simpl.
    eexists. split; [reflexivity|]. simpl. split_and!; try done.
    by rewrite write_at_nil.
Qed.

(** The first fetch of a path, the transfer being complete. *)
Lemma cold_fetch_run cache_path path w r rest name fd w1 :
  is_Some (db_get_err (env w)) \/ db w !! path2key path = None ->
  request_ok (env w) = true ->
  responses w = r :: rest ->
  r_begin r = NE_OK ->
  r_code r = 200 ->
  new_cache_file cache_path w = Some ((0, name, fd), w1) ->
  (length (r_body r) <= r_delivered r)%nat ->
  let entry :=
    mk_pdata name (substring 0 ETAG_MAX (r_etag r)) (clock (env w)) in
  exists w' ino,
    ldb_get_fresh_fd cache_path path w = Some (fd, w') /\
    env w' = env w /\ heap w' = heap w /\ statcache w' = statcache w /\
    responses w' = rest /\
    trace w' = trace w ++
      [EvDbGet (path2key path); EvHttpGet path None; EvMkstemp name fd;
       EvReadBody fd true; EvDbPut (path2key path) entry] /\
    db w' = match db_put_err (env w) with
            | None => <[path2key path := entry]> (db w)
            | Some _ => db w
            end /\
    dir (fs w) !! name = None /\
    dir (fs w') = <[name := ino]> (dir (fs w)) /\
    inodes (fs w') = <[ino := r_body r]> (inodes (fs w)) /\
    fdtab (fs w') =
      <[fd := mk_ofd ino (length (r_body r)) true true]> (fdtab (fs w)).
Proof.
  intros Hcold Hreq Hresp Hbegin Hcode Hncf Hall entry.
  destruct (new_cache_file_created_fs _ _ _ _ _ Hncf)
    as (ino & Hfree & Hfs1 & _ & _).
  rewrite (ldb_get_fresh_fd_cold _ _ _ Hcold).
  cbn [env set_trace]. rewrite Hreq, Hresp.
  cbn [request_loop]. rewrite Hbegin, Hcode.
  change (negb (NE_OK =? NE_OK)) with false.
  change (200 =? 304) with false. change (200 =? 200) with true. cbv iota.
  unfold modify at 1, emit at 1, modify at 1.
  unfold mbind at 1 2, M_bind.
  set (w0 := set_trace _ (set_responses _ _)).
  rewrite (bind_run _ _ _ _ _
             (new_cache_file_created_at _ _ _ _ _ w0 Hncf eq_refl eq_refl)).
  cbv beta iota.
  set (w2 := set_trace _ (set_tmp_supply _ _)).
  assert (Hfd2 : fdtab (fs w2) !! fd = Some (mk_ofd ino 0 true true)).
  { subst w2. simpl. rewrite Hfs1. simpl. by rewrite lookup_insert_eq. }
  assert (Hino2 : inodes (fs w2) !! ino = Some []).
  { subst w2. simpl. rewrite Hfs1. simpl. by rewrite lookup_insert_eq. }
  destruct (ne_read_response_to_fd_complete r fd w2 ino Hfd2 Hino2 Hall)
    as (w3 & Hread & He3 & Hh3 & Hst3 & Hr3 & Hdb3 & Htr3
        & Hdir3 & Hino3 & Hfd3).
  rewrite (bind_run _ _ _ _ _ Hread).
  unfold sys_time at 1, gets at 1. unfold mbind at 1, M_bind.
  assert (Henv : env w3 = env w) by (by rewrite He3).
  rewrite Henv.
  destruct (db_put_err (env w)) as [msg|] eqn:Hput;
    (erewrite bind_run;
       [|rewrite ldb_filecache_pdata_set_run, Henv, Hput; reflexivity]);
    (eexists _, ino; split; [reflexivity|]); simpl;
    (split_and!;
     [ done | by rewrite Hh3 | by rewrite Hst3 | by rewrite Hr3
     | rewrite Htr3; subst w2 w0; simpl; by rewrite <- !app_assoc
     | by rewrite Hdb3
     | done
     | rewrite Hdir3; subst w2; simpl; by rewrite Hfs1
     | rewrite Hino3; subst w2; simpl; rewrite Hfs1; simpl;
       by rewrite insert_insert_eq
     | rewrite Hfd3; subst w2; simpl; rewrite Hfs1; simpl;
       by rewrite insert_insert_eq ]).
Qed.

(** The resolver on a fresh entry: the lookup, then the open. *)
Lemma ldb_get_fresh_fd_fresh cache_path path w pd :
  db_get_err (env w) = None ->
  db w !! path2key path = Some pd ->
  time_t_sub (clock (env w)) (pd_last_server_update pd) <= REFRESH_INTERVAL ->
  ldb_get_fresh_fd cache_path path w =
    sys_open (pd_filename pd)
      (set_trace (trace w ++ [EvDbGet (path2key path)]) w).
Proof.
  intros Herr Hpd Hfresh.
  unfold ldb_get_fresh_fd.
  erewrite bind_run; [|by apply ldb_filecache_pdata_get_run].
  rewrite Hpd. unfold sys_time. unfold_monad. simpl.
  by destruct (Z.leb_spec (time_t_sub (clock (env w)) (pd_last_server_update pd))
                 REFRESH_INTERVAL); [|lia].
Qed.

(** X15: the first fetch.  For a path of which the lookup finds nothing
    (no entry, or an error of the store), when the server answers 200,
    the new file can be created and the whole body arrives: the request
    carries no ETag; the new file holds exactly the body; the entry that
    is put names the new file, carries the ETag of the answer cut to
    ETAG_MAX (256) characters and the current time; the result is the
    descriptor of the new file, open for reading and writing, left at
    the end of the body.  Nothing is unlinked: every other name is as
    before. *)
Theorem first_fetch_stages_and_records cache_path path w r rest name fd w1 :
  is_Some (db_get_err (env w)) \/ db w !! path2key path = None ->
  request_ok (env w) = true ->
  responses w = r :: rest ->
  r_begin r = NE_OK ->
  r_code r = 200 ->
  new_cache_file cache_path w = Some ((0, name, fd), w1) ->
  (length (r_body r) <= r_delivered r)%nat ->
  exists w' ino entry,
    ldb_get_fresh_fd cache_path path w = Some (fd, w') /\
    entry = mk_pdata name (substring 0 ETAG_MAX (r_etag r)) (clock (env w)) /\
    (String.length (pd_etag entry) <= ETAG_MAX)%nat /\
    trace w' = trace w ++
      [EvDbGet (path2key path); EvHttpGet path None; EvMkstemp name fd;
       EvReadBody fd true; EvDbPut (path2key path) entry] /\
    (db_put_err (env w) = None -> db w' !! path2key path = Some entry) /\
    dir (fs w') !! name = Some ino /\
    inodes (fs w') !! ino = Some (r_body r) /\
    fdtab (fs w') !! fd = Some (mk_ofd ino (length (r_body r)) true true) /\
    (forall other, other <> name ->
       dir (fs w') !! other = dir (fs w) !! other).
Proof.
  intros Hcold Hreq Hresp Hbegin Hcode Hncf Hall.
  destruct (cold_fetch_run _ path _ _ _ _ _ _ Hcold Hreq Hresp Hbegin Hcode
              Hncf Hall)
    as (w' & ino & Hrun & _ & _ & _ & _ & Htr & Hdb & _ & Hdir & Hino & Hfd).
  exists w', ino,
    (mk_pdata name (substring 0 ETAG_MAX (r_etag r)) (clock (env w))).
  split_and!; [exact Hrun | reflexivity | | exact Htr | ..].
  - apply substring_length_le.
  - intros Hput. rewrite Hdb, Hput. apply lookup_insert_eq.
  - rewrite Hdir. apply lookup_insert_eq.
  - rewrite Hino. apply lookup_insert_eq.
  - rewrite Hfd. apply lookup_insert_eq.
  - intros other Hne. rewrite Hdir. by apply lookup_insert_ne.
Qed.

Lemma first_fetch_stages_and_records_witness :
  let w := Sample.w_first in
  exists w' ino,
    ldb_get_fresh_fd Sample.cache_path Sample.path w = Some (3, w') /\
    db w' !! path2key Sample.path = Some (mk_pdata Sample.new_name "v2" 100) /\
    dir (fs w') !! Sample.new_name = Some ino /\
    inodes (fs w') !! ino = Some (list_byte_of_string "world").
Proof.
  assert (Hncf : exists w1,
            new_cache_file Sample.cache_path
              Sample.w_first
              = Some ((0, Sample.new_name, 3), w1))
    by (eexists; vm_compute; reflexivity).
  destruct Hncf as [w1 Hncf].
  destruct (first_fetch_stages_and_records Sample.cache_path Sample.path
              Sample.w_first Sample.full_content [] _ _ _
              (or_intror eq_refl) eq_refl eq_refl eq_refl eq_refl Hncf
              ltac:(simpl; lia))
    as (w' & ino & entry & Hrun & -> & _ & _ & Hdb & Hdir & Hino & _).
  exists w', ino. split; [exact Hrun|]. split; [exact (Hdb eq_refl)|].
  split; [exact Hdir|]. exact Hino.
Defined.

(** X16: fetch once, then use the copy.  After a first fetch of a path,
    with a store that works, a second resolve of the path at the same
    time finds the entry fresh: it sends no request and uses up no
    answer, its only calls are the lookup and the open of the new file,
    and its result is a second descriptor, other than the first, open
    for reading only on the same file. *)
Theorem second_resolve_uses_copy cache_path path w r rest name fd w1 :
  db_get_err (env w) = None ->
  db_put_err (env w) = None ->
  db w !! path2key path = None ->
  request_ok (env w) = true ->
  responses w = r :: rest ->
  r_begin r = NE_OK ->
  r_code r = 200 ->
  new_cache_file cache_path w = Some ((0, name, fd), w1) ->
  (length (r_body r) <= r_delivered r)%nat ->
  exists w' fd2 w'' ino,
    ldb_get_fresh_fd cache_path path w = Some (fd, w') /\
    ldb_get_fresh_fd cache_path path w' = Some (fd2, w'') /\
    trace w'' = trace w' ++ [EvDbGet (path2key path); EvOpen name fd2] /\
    responses w'' = rest /\
    fd2 <> fd /\
    fdtab (fs w'') !! fd = Some (mk_ofd ino (length (r_body r)) true true) /\
    fdtab (fs w'') !! fd2 = Some (mk_ofd ino 0 true false) /\
    inodes (fs w'') !! ino = Some (r_body r).
Proof.
  intros Hget Hput Hmiss Hreq Hresp Hbegin Hcode Hncf Hall.
  destruct (cold_fetch_run _ path _ _ _ _ _ _ (or_intror Hmiss) Hreq Hresp
              Hbegin Hcode Hncf Hall)
    as (w' & ino & Hrun & He & _ & _ & Hrs & Htr & Hdb & _ & Hdir & Hino & Hfd).
  rewrite Hput in Hdb.
  assert (Hfresh : ldb_get_fresh_fd cache_path path w' =
            sys_open name (set_trace (trace w' ++ [EvDbGet (path2key path)]) w')).
  { rewrite (ldb_get_fresh_fd_fresh cache_path path w'
               (mk_pdata name (substring 0 ETAG_MAX (r_etag r)) (clock (env w)))).
    - done.
    - by rewrite He.
    - rewrite Hdb. apply lookup_insert_eq.
    - rewrite He. simpl. rewrite time_t_sub_exact by lia.
      unfold REFRESH_INTERVAL. lia. }
  rewrite sys_open_run in Hfresh. simpl in Hfresh.
  rewrite Hdir, lookup_insert_eq in Hfresh.
  pose proof (lowest_free_None 0 (fdtab (fs w'))) as Hnew.
  set (fd2 := lowest_free 0 (fdtab (fs w'))) in *.
  assert (Hne : fd2 <> fd).
  { intros ->. rewrite Hfd, lookup_insert_eq in Hnew. done. }
  eexists w', fd2, _, ino. split_and!; [exact Hrun | exact Hfresh | ..]; simpl.
  - by rewrite <- app_assoc.
  - done.
  - done.
  - rewrite lookup_insert_ne by done. rewrite Hfd. apply lookup_insert_eq.
  - apply lookup_insert_eq.
  - rewrite Hino. apply lookup_insert_eq.
Qed.

Lemma second_resolve_uses_copy_witness :
  let w := Sample.w_first in
  exists w' fd2 w'',
    ldb_get_fresh_fd Sample.cache_path Sample.path w = Some (3, w') /\
    ldb_get_fresh_fd Sample.cache_path Sample.path w' = Some (fd2, w'') /\
    trace w'' = trace w' ++
      [EvDbGet (path2key Sample.path); EvOpen Sample.new_name fd2] /\
    fd2 <> 3.
Proof.
  assert (Hncf : exists w1,
            new_cache_file Sample.cache_path
              Sample.w_first
              = Some ((0, Sample.new_name, 3), w1))
    by (eexists; vm_compute; reflexivity).
  destruct Hncf as [w1 Hncf].
  destruct (second_resolve_uses_copy Sample.cache_path Sample.path
              Sample.w_first Sample.full_content [] _ _ _
              eq_refl eq_refl eq_refl eq_refl eq_refl eq_refl eq_refl Hncf
              ltac:(simpl; lia))
    as (w' & fd2 & w'' & ino & Hrun & Hrun2 & Htr & _ & Hne & _).
  exists w', fd2, w''. split; [exact Hrun|]. split; [exact Hrun2|].
  split; [exact Htr|]. exact Hne.
Defined.

(** The resolver when the entry, if there is one, is not fresh: the
    lookup, then the request loop with what the lookup gave. *)
Lemma ldb_get_fresh_fd_not_fresh cache_path path w :
  (forall pd, db_get_err (env w) = None -> db w !! path2key path = Some pd ->
     REFRESH_INTERVAL < time_t_sub (clock (env w)) (pd_last_server_update pd)) ->
  ldb_get_fresh_fd cache_path path w =
    (if request_ok (env w)
     then request_loop (responses w) cache_path path
            (match db_get_err (env w) with
             | Some _ => None
             | None => db w !! path2key path
             end)
     else ret (-1))
      (set_trace (trace w ++ [EvDbGet (path2key path)]) w).
Proof.
  intros Hstale.
  destruct (db_get_err (env w)) as [msg|] eqn:Herr.
  - rewrite ldb_get_fresh_fd_cold; [done|]. left. rewrite Herr. by eexists.
  - destruct (db w !! path2key path) as [pd|] eqn:Hpd.
    + specialize (Hstale pd eq_refl eq_refl).
      unfold ldb_get_fresh_fd.
      erewrite bind_run; [|by apply ldb_filecache_pdata_get_run].
      rewrite Hpd. unfold sys_time. unfold_monad. simpl.
      destruct (Z.leb_spec (time_t_sub (clock (env w)) (pd_last_server_update pd))
                  REFRESH_INTERVAL); [lia|].
      simpl. by destruct (request_ok (env w)).
    + rewrite ldb_get_fresh_fd_cold; [done|]. by right.
Qed.

(** The request loop on answers none of which is of use: one request per
    answer tried, and nothing else. *)
Lemma request_loop_unusable cache_path path pdata answers :
  Forall unusable_answer answers ->
  forall w,
    exists w' n,
      request_loop answers cache_path path pdata w = Some (-1, w') /\
      env w' = env w /\ fs w' = fs w /\ db w' = db w /\
      heap w' = heap w /\ statcache w' = statcache w /\
      (1 <= n <= S (length answers))%nat /\
      trace w' = trace w ++ replicate n (EvHttpGet path (pd_etag <$> pdata)).
Proof.
  induction 1 as [|r rest Hr _ IH]; intros w.
  - simpl. unfold_monad. simpl. eexists _, 1%nat.
    split; [reflexivity|]. simpl. split_and!; try done; lia.
  - cbn [request_loop].
    unfold modify at 1, emit at 1, modify at 1.
    unfold mbind at 1 2, M_bind.
    set (w0 := set_trace _ (set_responses _ _)).
    destruct (Z.eqb_spec (r_begin r) NE_OK) as [Hb|Hb]; simpl.
    + destruct Hr as [Hr|[H200 H304]]; [done|].
      destruct (Z.eqb_spec (r_code r) 304) as [|_]; [done|].
      destruct (Z.eqb_spec (r_code r) 200) as [|_]; [done|].
      destruct (r_end r =? NE_RETRY).
      * destruct (IH w0) as (w' & k & Hrun & He & Hfs & Hdb & Hh & Hst & Hn & Htr).
        exists w', (S k). split; [exact Hrun|].
        rewrite He, Hfs, Hdb, Hh, Hst, Htr. subst w0. simpl.
        split_and!; try done; [lia|lia|].
        by rewrite <- app_assoc.
      * eexists _, 1%nat. split; [reflexivity|]. simpl.
        split_and!; try done; lia.
    + eexists _, 1%nat. split; [reflexivity|]. simpl.
      split_and!; try done; lia.
Qed.

(** X17: no usable answer, no descriptor.  When a path has no fresh
    entry (the age of an entry that is found, as the code computes it in
    64 bits, is more than REFRESH_INTERVAL) and either no request can be
    created or every answer of the server is unusable (the request fails, or the status is neither 200
    nor 304), however often the server asks to retry, the resolver
    returns -1; the store, the files and the open descriptors are as
    before, and the calls are the lookup and one request per answer
    tried. *)
Theorem no_usable_answer_no_descriptor cache_path path w :
  (forall pd, db_get_err (env w) = None -> db w !! path2key path = Some pd ->
     REFRESH_INTERVAL < time_t_sub (clock (env w)) (pd_last_server_update pd)) ->
  request_ok (env w) = false \/ Forall unusable_answer (responses w) ->
  exists w' n etag,
    ldb_get_fresh_fd cache_path path w = Some (-1, w') /\
    fs w' = fs w /\ db w' = db w /\ heap w' = heap w /\
    statcache w' = statcache w /\
    (n <= S (length (responses w)))%nat /\
    trace w' = trace w ++
      EvDbGet (path2key path) :: replicate n (EvHttpGet path etag).
Proof.
  intros Hstale Hno.
  rewrite (ldb_get_fresh_fd_not_fresh _ _ _ Hstale).
  destruct (request_ok (env w)) eqn:Hreq.
  - destruct Hno as [|Hno]; [done|].
    set (pdata := match db_get_err (env w) with
                  | Some _ => None | None => db w !! path2key path end).
    destruct (request_loop_unusable cache_path path pdata _ Hno
                (set_trace (trace w ++ [EvDbGet (path2key path)]) w))
      as (w' & n & Hrun & He & Hfs & Hdb & Hh & Hst & Hn & Htr).
    exists w', n, (pd_etag <$> pdata). split; [exact Hrun|].
    split_and!; try done; [lia|].
    rewrite Htr. simpl. by rewrite <- app_assoc.
  - exists (set_trace (trace w ++ [EvDbGet (path2key path)]) w), 0%nat, None.
    split; [reflexivity|]. simpl. split_and!; try done. lia.
Qed.

Lemma no_usable_answer_no_descriptor_witness :
  let w := Sample.w_cached Sample.env_ok 0
             [Sample.busy_retry; Sample.busy_retry; Sample.not_found] in
  exists w',
    ldb_get_fresh_fd Sample.cache_path Sample.path w = Some (-1, w') /\
    fs w' = fs w /\ db w' = db w /\
    trace w' =
      [EvDbGet (path2key Sample.path);
       EvHttpGet Sample.path (Some "v1"); EvHttpGet Sample.path (Some "v1");
       EvHttpGet Sample.path (Some "v1")].
Proof.
  destruct (no_usable_answer_no_descriptor Sample.cache_path Sample.path
              (Sample.w_cached Sample.env_ok 0
                 [Sample.busy_retry; Sample.busy_retry; Sample.not_found]))
    as (w' & n & etag & Hrun & Hfs & Hdb & _).
  - intros pd _ Hpd. vm_compute in Hpd. injection Hpd as <-. vm_compute.
    reflexivity.
  - right. simpl.
    constructor; [right; split; discriminate|].
    constructor; [right; split; discriminate|].
    constructor; [right; split; discriminate|]. constructor.
  - exists w'. split; [exact Hrun|]. split; [exact Hfs|]. split; [exact Hdb|].
    assert (Hrun' : exists w'',
              ldb_get_fresh_fd Sample.cache_path Sample.path
                (Sample.w_cached Sample.env_ok 0
                   [Sample.busy_retry; Sample.busy_retry; Sample.not_found])
              = Some (-1, w'') /\
              trace w'' =
                [EvDbGet (path2key Sample.path);
                 EvHttpGet Sample.path (Some "v1");
                 EvHttpGet Sample.path (Some "v1");
                 EvHttpGet Sample.path (Some "v1")])
      by (eexists; split; vm_compute; reflexivity).
    destruct Hrun' as (w'' & Hrun' & Htr). congruence.
Defined.

(** ** Descriptors that are open while the resolver runs *)

(** Well-formedness of a given file system can be computed. *)
Lemma fs_wf_check f :
  bool_decide
    (map_Forall (fun fd o => 0 <= fd /\ is_Some (inodes f !! of_ino o))
       (fdtab f)) = true ->
  fs_wf f.
Proof. intros H fd o Hfd. by apply (bool_decide_eq_true_1 _ H fd o). Qed.

Lemma keeps_open_files_refl f : keeps_open_files f f.
Proof. by intros fd o Hfd. Qed.

Lemma keeps_open_files_trans f1 f2 f3 :
  keeps_open_files f1 f2 -> keeps_open_files f2 f3 -> keeps_open_files f1 f3.
Proof.
  intros H12 H23 fd o Hfd.
  destruct (H12 fd o Hfd) as [Hfd2 Hino2].
  destruct (H23 fd o Hfd2) as [Hfd3 Hino3].
  split; [done|]. by rewrite Hino3.
Qed.

Lemma keeps_open_files_same_tables f f' :
  fdtab f' = fdtab f -> inodes f' = inodes f -> keeps_open_files f f'.
Proof. intros Hfd Hino fd o Ho. by rewrite Hfd, Hino. Qed.

(** A new file on a new descriptor disturbs no descriptor that was open,
    whatever is then written through the new descriptor. *)
Lemma keeps_open_files_new_file f name ino fd' o' data :
  fs_wf f ->
  inodes f !! ino = None ->
  fdtab f !! fd' = None ->
  keeps_open_files f
    (mk_fs (<[name := ino]> (dir f)) (<[ino := data]> (inodes f))
           (<[fd' := o']> (fdtab f))).
Proof.
  intros Hwf Hino Hfd' fd o Hfd. simpl.
  destruct (Hwf fd o Hfd) as [_ [c Hc]].
  split.
  - rewrite lookup_insert_ne; [done|]. congruence.
  - rewrite lookup_insert_ne; [done|]. congruence.
Qed.

Lemma new_cache_file_fs_cases cache_path w r0 name rfd w1 :
  new_cache_file cache_path w = Some ((r0, name, rfd), w1) ->
  env w1 = env w /\ heap w1 = heap w /\ statcache w1 = statcache w /\
  ((rfd = -1 /\ fs w1 = fs w) \/
   (fs w1 = mk_fs (<[name := lowest_free 1 (inodes (fs w))]> (dir (fs w)))
                  (<[lowest_free 1 (inodes (fs w)) := []]> (inodes (fs w)))
                  (<[rfd := mk_ofd (lowest_free 1 (inodes (fs w))) 0 true true]>
                     (fdtab (fs w))) /\
    rfd = lowest_free 0 (fdtab (fs w)))).
Proof.
  unfold new_cache_file.
  generalize (substring 0 (PATH_MAX - 1)
                (cache_path +:+ "/files/fusedav-cache-XXXXXX")).
  intros template H.
  apply bind_inv in H as ([fd0 name0] & w0 & Hmk & H).
  assert (rfd = fd0 /\ name = name0 /\ w1 = w0) as (-> & -> & ->).
  { destruct (fd0 <? 0); unfold ret, mret, M_ret in H; by simplify_eq. }
  clear H. revert Hmk. unfold mkstemp.
  destruct (is_template template); simpl.
  - unfold_monad. simpl.
    destruct (mkstemp_attempts _ _ _ _) as [[[] name'] rest]; simpl;
      intros [= <- <- <-]; simpl; (split_and!; try done);
      [by right | by left].
  - unfold_monad. simpl. intros [= <- <- <-]. simpl.
    split_and!; try done. by left.
Qed.

Lemma ne_read_response_to_fd_fs_cases r rfd w res w3 :
  ne_read_response_to_fd r rfd w = Some (res, w3) ->
  env w3 = env w /\ heap w3 = heap w /\ statcache w3 = statcache w /\
  dir (fs w3) = dir (fs w) /\
  (fs w3 = fs w \/
   exists o data pos,
     fdtab (fs w) !! rfd = Some o /\
     inodes (fs w3) = <[of_ino o := data]> (inodes (fs w)) /\
     fdtab (fs w3) =
       <[rfd := mk_ofd (of_ino o) pos (of_rd o) (of_wr o)]> (fdtab (fs w))).
Proof.
  unfold ne_read_response_to_fd, sys_write.
  destruct (bool_decide (take (r_delivered r) (r_body r) = [])); simpl.
  - unfold_monad. simpl. intros [= <- <-]. simpl. split_and!; try done.
    by left.
  - unfold_monad. simpl.
    destruct (fdtab (fs w) !! rfd) as [o|] eqn:Ho; simpl;
      [|intros [= <- <-]; simpl; split_and!; try done; by left].
    destruct (of_wr o) eqn:Hwr; simpl; intros [= <- <-]; simpl;
      (split_and!; try done); [|by left].
    right. eexists o, _, _. split; [done|]. split; [reflexivity|].
    by rewrite Hwr.
Qed.

(** Creating the new file and filling it. *)
Lemma stage_keeps_open_files cache_path w r r0 name rfd w1 res w3 :
  new_cache_file cache_path w = Some ((r0, name, rfd), w1) ->
  ne_read_response_to_fd r rfd w1 = Some (res, w3) ->
  fs_wf (fs w) ->
  env w3 = env w /\ heap w3 = heap w /\ statcache w3 = statcache w /\
  keeps_open_files (fs w) (fs w3).
Proof.
  intros Hncf Hread Hwf.
  destruct (new_cache_file_fs_cases _ _ _ _ _ _ Hncf)
    as (He1 & Hh1 & Hst1 & Hcase1).
  destruct (ne_read_response_to_fd_fs_cases _ _ _ _ _ Hread)
    as (He3 & Hh3 & Hst3 & Hdir3 & Hcase3).
  split_and!; [congruence | congruence | congruence |].
  pose proof (lowest_free_None 1 (inodes (fs w))) as Hino.
  pose proof (lowest_free_None 0 (fdtab (fs w))) as Hfd.
  destruct Hcase1 as [[-> Hfs1] | [Hfs1 ->]].
  - destruct Hcase3 as [Hfs3 | (o & data & pos & Ho & _)].
    + rewrite Hfs3, Hfs1. apply keeps_open_files_refl.
    + rewrite Hfs1 in Ho. destruct (Hwf _ _ Ho) as [Hneg _]. lia.
  - destruct Hcase3 as [Hfs3 | (o & data & pos & Ho & Hino3 & Hfd3)].
    + rewrite Hfs3, Hfs1. by apply keeps_open_files_new_file.
    + rewrite Hfs1 in Ho, Hino3, Hfd3. simpl in Ho, Hino3, Hfd3.
      rewrite lookup_insert_eq in Ho. injection Ho as <-.
      simpl in Hino3, Hfd3.
      rewrite insert_insert_eq in Hino3. rewrite insert_insert_eq in Hfd3.
      intros fd o Hfdo.
      destruct (keeps_open_files_new_file (fs w) name
                  (lowest_free 1 (inodes (fs w)))
                  (lowest_free 0 (fdtab (fs w)))
                  (mk_ofd (lowest_free 1 (inodes (fs w))) pos true true)
                  data Hwf Hino Hfd fd o Hfdo) as [H1 H2].
      simpl in H1, H2. by rewrite Hfd3, Hino3.
Qed.

Lemma sys_open_keeps_open_files name w r w' :
  sys_open name w = Some (r, w') ->
  env w' = env w /\ heap w' = heap w /\ statcache w' = statcache w /\
  keeps_open_files (fs w) (fs w').
Proof.
  rewrite sys_open_run.
  destruct (dir (fs w) !! name) as [ino|]; intros [= <- <-]; simpl.
  - split_and!; [done | done | done |].
    intros fd o Hfd. simpl. split; [|done].
    rewrite lookup_insert_ne; [done|].
    intros <-. by rewrite lowest_free_None in Hfd.
  - split_and!; [done | done | done |]. apply keeps_open_files_refl.
Qed.

Lemma sys_unlink_keeps_open_files name w r w' :
  sys_unlink name w = Some (r, w') ->
  env w' = env w /\ heap w' = heap w /\ statcache w' = statcache w /\
  keeps_open_files (fs w) (fs w').
Proof.
  unfold sys_unlink. unfold_monad. simpl.
  destruct (dir (fs w) !! name); simpl; intros [= <- <-]; simpl;
    (split_and!; [done | done | done |]);
    by apply keeps_open_files_same_tables.
Qed.

Lemma ldb_filecache_pdata_set_frame path pdata w r w' :
  ldb_filecache_pdata_set path pdata w = Some (r, w') ->
  env w' = env w /\ heap w' = heap w /\ statcache w' = statcache w /\
  fs w' = fs w.
Proof.
  destruct pdata as [pd|]; [|by intros [= <- <-]].
  rewrite ldb_filecache_pdata_set_run.
  by destruct (db_put_err (env w)); intros [= <- <-].
Qed.

(** The request loop, whatever the answers and whatever the result. *)
Lemma request_loop_keeps_open_files cache_path path answers :
  forall pdata w rfd w',
    request_loop answers cache_path path pdata w = Some (rfd, w') ->
    fs_wf (fs w) ->
    env w' = env w /\ heap w' = heap w /\ statcache w' = statcache w /\
    keeps_open_files (fs w) (fs w').
Proof.
  induction answers as [|r rest IH]; intros pdata w rfd w' H Hwf.
  - simpl in H. unfold_monad. simpl in H. injection H as <- <-. simpl.
    split_and!; try done; apply keeps_open_files_refl.
  - cbn [request_loop] in H.
    unfold modify at 1, emit at 1, modify at 1 in H.
    unfold mbind at 1 2, M_bind in H.
    set (w0 := set_trace _ (set_responses _ _)) in H.
    assert (Hw0 : env w0 = env w /\ heap w0 = heap w /\
                  statcache w0 = statcache w /\ fs w0 = fs w) by done.
    destruct Hw0 as (He0 & Hh0 & Hst0 & Hfs0).
    assert (Hwf0 : fs_wf (fs w0)) by (by rewrite Hfs0).
    rewrite <- He0, <- Hh0, <- Hst0, <- Hfs0.
    clearbody w0. clear He0 Hh0 Hst0 Hfs0 Hwf w.
    destruct (negb (r_begin r =? NE_OK)).
    { unfold ret, mret, M_ret in H. injection H as <- <-.
      split_and!; try done; apply keeps_open_files_refl. }
    destruct (r_code r =? 304).
    { destruct pdata as [pd|]; [|done].
      apply bind_inv in H as (now & w1 & Htime & H).
      unfold sys_time, gets in Htime. injection Htime as <- <-.
      apply bind_inv in H as (r1 & w2 & Hset & H).
      apply ldb_filecache_pdata_set_frame in Hset as (He2 & Hh2 & Hst2 & Hfs2).
      apply sys_open_keeps_open_files in H as (He3 & Hh3 & Hst3 & Hk3).
      rewrite Hfs2 in Hk3.
      split_and!; [congruence | congruence | congruence | done]. }
    destruct (r_code r =? 200).
    { assert (Hbody : exists pd old_filename,
                (new_cache_file cache_path ≫= fun '(_, name, ret_fd) =>
                 ne_read_response_to_fd r ret_fd ≫= fun _ =>
                 sys_time ≫= fun now =>
                 ldb_filecache_pdata_set path
                   (Some (set_pd_last_server_update now
                            (set_pd_filename name pd))) ≫= fun _ =>
                 match old_filename with
                 | Some old => sys_unlink old ≫= fun _ => ret ret_fd
                 | None => ret ret_fd
                 end) w0 = Some (rfd, w')).
      { destruct pdata as [pd|].
        - exists pd, (Some (pd_filename pd)). exact H.
        - exists (mk_pdata "" (substring 0 ETAG_MAX (r_etag r)) 0), None.
          exact H. }
      clear H. destruct Hbody as (pd & old_filename & H).
      apply bind_inv in H as ([[r0 name] ret_fd] & w1 & Hncf & H).
      apply bind_inv in H as (res & w3 & Hread & H).
      destruct (stage_keeps_open_files _ _ _ _ _ _ _ _ _ Hncf Hread Hwf0)
        as (He3 & Hh3 & Hst3 & Hk3).
      apply bind_inv in H as (now & w3' & Htime & H).
      unfold sys_time, gets in Htime. injection Htime as <- <-.
      apply bind_inv in H as (r4 & w4 & Hset & H).
      apply ldb_filecache_pdata_set_frame in Hset as (He4 & Hh4 & Hst4 & Hfs4).
      destruct old_filename as [old|].
      - apply bind_inv in H as (r5 & w5 & Hunlink & H).
        unfold ret, mret, M_ret in H. injection H as <- <-.
        apply sys_unlink_keeps_open_files in Hunlink as (He5 & Hh5 & Hst5 & Hk5).
        rewrite Hfs4 in Hk5.
        split_and!; [congruence | congruence | congruence |].
        by apply (keeps_open_files_trans _ (fs w3)).
      - unfold ret, mret, M_ret in H. injection H as <- <-.
        rewrite Hfs4.
        split_and!; [congruence | congruence | congruence | done]. }
    destruct (r_end r =? NE_RETRY).
    + by apply (IH pdata w0 rfd w').
    + unfold ret, mret, M_ret in H. injection H as <- <-.
      split_and!; try done; apply keeps_open_files_refl.
Qed.

(** X18: what the resolver never does.  In a file system where no
    descriptor is negative and every descriptor refers to a file that
    exists, whatever the store holds, whatever the server answers and
    whatever the result of the resolver: every descriptor that was open
    is still open on the same file at the same offset, and that file has
    the bytes it had, also when the path got a new file and the old one
    was unlinked.  The heap and the stat cache are as before. *)
Theorem resolver_keeps_open_files cache_path path w rfd w' :
  ldb_get_fresh_fd cache_path path w = Some (rfd, w') ->
  fs_wf (fs w) ->
  keeps_open_files (fs w) (fs w') /\
  heap w' = heap w /\
  statcache w' = statcache w.
Proof.
  intros H Hwf. unfold ldb_get_fresh_fd in H.
  apply bind_inv in H as (pdata & w0 & Hget & H).
  assert (Hw0 : env w0 = env w /\ heap w0 = heap w /\
                statcache w0 = statcache w /\ fs w0 = fs w).
  { revert Hget. unfold ldb_filecache_pdata_get, leveldb_get.
    unfold_monad. simpl.
    destruct (db_get_err (env w)); simpl; [by intros [= <- <-]|].
    by destruct (db w !! path2key path); intros [= <- <-]. }
  destruct Hw0 as (He0 & Hh0 & Hst0 & Hfs0).
  rewrite <- Hfs0, <- Hh0, <- Hst0. rewrite <- Hfs0 in Hwf.
  clear Hget He0 Hh0 Hst0 Hfs0.
  apply bind_inv in H as (fresh & w1 & Hfresh & H).
  assert (w1 = w0) as ->.
  { destruct pdata as [pd|]; unfold sys_time in Hfresh; unfold_monad;
      simpl in Hfresh; by injection Hfresh. }
  assert (Hloop :
    (exists name, sys_open name w0 = Some (rfd, w')) \/
    (rfd = -1 /\ w' = w0) \/
    (exists answers, request_loop answers cache_path path pdata w0
                     = Some (rfd, w'))).
  { destruct fresh, pdata as [pd|]; eauto;
      revert H; unfold_monad; simpl;
      destruct (request_ok (env w0)); simpl; intros H;
      first [ right; right; eexists; exact H
            | right; left; by injection H as <- <- ]. }
  destruct Hloop as [[name Hopen] | [[-> ->] | [answers Hloop]]].
  - by apply sys_open_keeps_open_files in Hopen as (_ & ? & ? & ?).
  - split_and!; try done; apply keeps_open_files_refl.
  - by apply request_loop_keeps_open_files in Hloop as (_ & ? & ? & ?).
Qed.

Lemma resolver_keeps_open_files_witness :
  let w := set_fs (Sample.cached_fs {[ 5 := mk_ofd 1 2 true false ]})
             (Sample.w_cached Sample.env_ok 0 [Sample.full_content]) in
  exists w',
    ldb_get_fresh_fd Sample.cache_path Sample.path w = Some (0, w') /\
    dir (fs w') !! Sample.old_name = None /\
    fdtab (fs w') !! 5 = Some (mk_ofd 1 2 true false) /\
    inodes (fs w') !! 1 = Some Sample.hello.
Proof.
  assert (Hrun : exists w',
            ldb_get_fresh_fd Sample.cache_path Sample.path
              (set_fs (Sample.cached_fs {[ 5 := mk_ofd 1 2 true false ]})
                 (Sample.w_cached Sample.env_ok 0 [Sample.full_content]))
            = Some (0, w') /\
            dir (fs w') !! Sample.old_name = None)
    by (eexists; split; vm_compute; reflexivity).
  destruct Hrun as (w' & Hrun & Hdir).
  destruct (resolver_keeps_open_files _ _ _ _ _ Hrun) as (Hkeep & _).
  - apply fs_wf_check. vm_compute. reflexivity.
  - exists w'. split; [exact Hrun|]. split; [exact Hdir|].
    destruct (Hkeep 5 (mk_ofd 1 2 true false) eq_refl) as [Hfd Hino].
    split; [exact Hfd|]. simpl in Hino. rewrite Hino. reflexivity.
Defined.

(** ** Open, continued *)

(** A resolve-open of a path with a fresh entry whose file is there. *)
Lemma resolve_open_fresh_run cache_path path info w pd ino :
  session_ok (env w) = true ->
  malloc_ok (env w) = true ->
  db_get_err (env w) = None ->
  db w !! path2key path = Some pd ->
  time_t_sub (clock (env w)) (pd_last_server_update pd) <= REFRESH_INTERVAL ->
  dir (fs w) !! pd_filename pd = Some ino ->
  0 < lowest_free 0 (fdtab (fs w)) ->
  exists w',
    ldb_filecache_open cache_path path info false w
      = Some ((0, mk_info (flags info) (lowest_free 1 (heap w))), w') /\
    env w' = env w /\ db w' = db w /\ statcache w' = statcache w /\
    fs w' = mk_fs (dir (fs w)) (inodes (fs w))
              (<[lowest_free 0 (fdtab (fs w)) := mk_ofd ino 0 true false]>
                 (fdtab (fs w))) /\
    trace w' = trace w ++
      [EvDbGet (path2key path);
       EvOpen (pd_filename pd) (lowest_free 0 (fdtab (fs w)))] /\
    heap w' !! lowest_free 1 (heap w) =
      Some (mk_sdata (lowest_free 0 (fdtab (fs w))) ""
              (readable_requested (flags info))
              (writable_requested (flags info)) false).
Proof.
  intros Hs Hm Herr Hpd Hfresh Hdir Hfd.
  pose proof (lowest_free_ge 1 (heap w)) as Hge.
  set (a := lowest_free 1 (heap w)) in *.
  set (fd := lowest_free 0 (fdtab (fs w))) in *.
  assert (Ha : a <> 0) by lia.
  set (wa := set_heap (<[a := zero_sdata]> (heap w)) w).
  assert (Hres : ldb_get_fresh_fd cache_path path wa =
            Some (fd,
                  set_trace (trace w ++ [EvDbGet (path2key path);
                                         EvOpen (pd_filename pd) fd])
                    (set_fs (mk_fs (dir (fs w)) (inodes (fs w))
                               (<[fd := mk_ofd ino 0 true false]> (fdtab (fs w))))
                       wa))).
  { rewrite (ldb_get_fresh_fd_fresh cache_path path wa pd Herr Hpd Hfresh).
    rewrite sys_open_run. simpl. rewrite Hdir. fold fd.
    do 2 f_equal. apply world_eq; simpl; try reflexivity.
    by rewrite <- app_assoc. }
  set (sd := mk_sdata fd "" false false false).
  assert (Hobtain : exists w2,
            open_obtain_fd cache_path path false a wa = Some (true, w2) /\
            heap w2 !! a = Some sd /\
            env w2 = env w /\ db w2 = db w /\ statcache w2 = statcache w /\
            fs w2 = mk_fs (dir (fs w)) (inodes (fs w))
                      (<[fd := mk_ofd ino 0 true false]> (fdtab (fs w))) /\
            trace w2 = trace w ++ [EvDbGet (path2key path);
                                   EvOpen (pd_filename pd) fd]).
  { unfold open_obtain_fd. rewrite (bind_run _ _ _ _ _ Hres).
    erewrite bind_run; [|by apply store_sdata_Some, lookup_insert_eq].
    eexists. split; [reflexivity|]. simpl.
    split_and!; try done. by rewrite lookup_insert_eq. }
  destruct Hobtain as (w2 & Hobtain & Hsd & He2 & Hdb2 & Hst2 & Hfs2 & Htr2).
  destruct (open_install_run info a sd w2 Hsd Ha)
    as (w' & He & Hfs & Hst & Hdb & Hrun).
  simpl in Hrun. destruct (Z.gtb_spec fd 0) as [_|]; [|lia].
  destruct Hrun as (Hrun & Hheap & Htr).
  exists w'. split_and!.
  - by rewrite (ldb_filecache_open_run _ _ info _ _ _ _ Hs Hm Hobtain).
  - congruence.
  - congruence.
  - congruence.
  - congruence.
  - congruence.
  - done.
Qed.

(** X19: a resolve-open for writing of a path with a fresh entry (its
    age, as the code computes it in 64 bits, is at most
    REFRESH_INTERVAL), with a descriptor above 0 to hand out, succeeds
    with session data marked writable and not modified, on a descriptor
    that was opened for reading only (the flags of the open call are
    O_APPEND alone).  Every write through the session then fails,
    whatever the buffer and the size: with -EBADF, or with -EINVAL when
    the offset is negative; the file and the session data are unchanged
    by it. *)
Theorem write_after_resolve_open_fails
    cache_path path info w pd ino buf size offset :
  session_ok (env w) = true ->
  malloc_ok (env w) = true ->
  db_get_err (env w) = None ->
  db w !! path2key path = Some pd ->
  time_t_sub (clock (env w)) (pd_last_server_update pd) <= REFRESH_INTERVAL ->
  dir (fs w) !! pd_filename pd = Some ino ->
  0 < lowest_free 0 (fdtab (fs w)) ->
  writable_requested (flags info) = true ->
  exists info' w' sd w'',
    ldb_filecache_open cache_path path info false w = Some ((0, info'), w') /\
    heap w' !! fh info' = Some sd /\
    sd_writable sd = true /\ sd_modified sd = false /\
    fdtab (fs w') !! sd_fd sd = Some (mk_ofd ino 0 true false) /\
    ldb_filecache_write info' buf size offset w'
      = Some (- (if offset <? 0 then EINVAL else EBADF), w'') /\
    heap w'' = heap w' /\
    fs w'' = fs w'.
Proof.
  intros Hs Hm Herr Hpd Hfresh Hdir Hfd Hwr.
  destruct (resolve_open_fresh_run cache_path path info _ _ _ Hs Hm Herr Hpd
              Hfresh Hdir Hfd)
    as (w' & Hopen & _ & _ & _ & Hfs & _ & Hheap).
  set (info' := mk_info (flags info) (lowest_free 1 (heap w))) in *.
  set (sd := mk_sdata _ _ _ _ _) in Hheap.
  assert (Hro : fdtab (fs w') !! sd_fd sd = Some (mk_ofd ino 0 true false)).
  { rewrite Hfs. simpl. apply lookup_insert_eq. }
  assert (Hwrite : ldb_filecache_write info' buf size offset w' =
            Some (- (if offset <? 0 then EINVAL else EBADF),
                  set_errno (if offset <? 0 then EINVAL else EBADF)
                    (set_trace (trace w' ++
                       [EvPwrite (sd_fd sd) offset (take size buf)]) w'))).
  { unfold ldb_filecache_write.
    erewrite bind_run; [|by apply load_sdata_Some].
    simpl. rewrite Hwr. simpl.
    unfold sys_pwrite. unfold_monad. simpl.
    destruct (offset <? 0); [reflexivity|]. simpl.
    simpl in Hro. rewrite Hro. reflexivity. }
  eexists info', w', sd, _. split_and!; [exact Hopen | exact Hheap | done | done
    | exact Hro | exact Hwrite | done | done].
Qed.

Lemma write_after_resolve_open_fails_witness :
  let w := Sample.w_cached Sample.env_ok 100 [] in
  exists info' w' w'',
    ldb_filecache_open Sample.cache_path Sample.path (mk_info O_RDWR 0) false w
      = Some ((0, info'), w') /\
    ldb_filecache_write info' Sample.hello 5 0 w' = Some (-9, w'') /\
    heap w'' = heap w'.
Proof.
  destruct (write_after_resolve_open_fails Sample.cache_path Sample.path
              (mk_info O_RDWR 0) (Sample.w_cached Sample.env_ok 100 [])
              (mk_pdata Sample.old_name "v1" 100) 1 Sample.hello 5 0)
    as (info' & w' & sd & w'' & Hopen & _ & _ & _ & _ & Hwrite & Hheap & _);
    [reflexivity | reflexivity | reflexivity | reflexivity
    | vm_compute; discriminate | reflexivity | vm_compute; reflexivity
    | reflexivity |].
  exists info', w', w''. split; [exact Hopen|]. split; [exact Hwrite|].
  exact Hheap.
Defined.

(** X20: a replace-open whose new file cannot be created returns -1 and
    leaves NULL in the file info.  The session data is freed, so that the
    heap is as it was before the open; nothing is published to the stat
    cache and the store is not touched; the calls are the failed mkstemp
    and the free. *)
Theorem replace_open_without_file cache_path path info w name fd w1 :
  session_ok (env w) = true ->
  malloc_ok (env w) = true ->
  new_cache_file cache_path w = Some ((-1, name, fd), w1) ->
  exists w' tried,
    ldb_filecache_open cache_path path info true w
      = Some ((-1, mk_info (flags info) 0), w') /\
    heap w' = heap w /\
    statcache w' = statcache w /\
    db w' = db w /\
    fs w' = fs w /\
    trace w' = trace w ++
      [EvMkstemp tried (-1); EvFree (lowest_free 1 (heap w))].
Proof.
  intros Hs Hm Hncf.
  pose proof (lowest_free_ge 1 (heap w)) as Hge.
  pose proof (lowest_free_None 1 (heap w)) as Hnone.
  set (a := lowest_free 1 (heap w)) in *.
  assert (Hz : (a =? 0) = false) by (apply Z.eqb_neq; lia).
  assert (Hfail : fd = -1 /\ fs w1 = fs w /\ db w1 = db w /\
                  statcache w1 = statcache w /\ heap w1 = heap w /\
                  exists tried, trace w1 = trace w ++ [EvMkstemp tried (-1)]).
  { revert Hncf. unfold new_cache_file.
    generalize (substring 0 (PATH_MAX - 1)
                  (cache_path +:+ "/files/fusedav-cache-XXXXXX")).
    intros template H.
    apply bind_inv in H as ([fd0 name0] & w0 & Hmk & H).
    destruct (Z.ltb_spec fd0 0); unfold ret, mret, M_ret in H; simplify_eq.
    revert Hmk. unfold mkstemp.
    destruct (is_template template); simpl.
    - unfold_monad. simpl.
      destruct (mkstemp_attempts _ _ _ _) as [[[] name'] rest]; simpl;
        intros [= <- <- <-]; simpl.
      + pose proof (lowest_free_ge 0 (fdtab (fs w))). lia.
      + split_and!; eauto.
    - unfold_monad. simpl. intros [= <- <- <-]. simpl. split_and!; eauto. }
  destruct Hfail as (-> & Hfs1 & Hdb1 & Hst1 & Hh1 & tried & Htr1).
  assert (Hobtain : exists h,
            open_obtain_fd cache_path path true a
              (set_heap (<[a := zero_sdata]> (heap w)) w)
            = Some (false, set_heap h w1) /\
            delete a h = heap w).
  { unfold open_obtain_fd.
    erewrite bind_run; [|by apply store_sdata_Some, lookup_insert_eq].
    erewrite bind_run; [|by rewrite !new_cache_file_set_heap, Hncf].
    cbv beta iota.
    erewrite bind_run; [|by apply store_sdata_Some, lookup_insert_eq].
    erewrite bind_run; [|by apply store_sdata_Some, lookup_insert_eq].
    simpl. eexists. split; [reflexivity|].
    rewrite !insert_insert_eq. rewrite delete_insert_eq.
    by apply delete_id. }
  destruct Hobtain as (h & Hobtain & Hh).
  rewrite (ldb_filecache_open_run _ _ info _ _ _ _ Hs Hm Hobtain). fold a.
  simpl. unfold open_fail, free_sdata. unfold_monad. simpl. rewrite Hz. simpl.
  eexists _, tried. split; [reflexivity|]. simpl.
  split_and!; try done. by rewrite Htr1, <- app_assoc.
Qed.

Lemma replace_open_without_file_witness :
  let w := set_tmp_supply [] Sample.w_empty in
  exists w',
    ldb_filecache_open Sample.cache_path Sample.path (mk_info O_WRONLY 0) true w
      = Some ((-1, mk_info O_WRONLY 0), w') /\
    heap w' = heap w /\ statcache w' = statcache w.
Proof.
  assert (Hncf : exists name w1,
            new_cache_file Sample.cache_path
              (set_tmp_supply [] Sample.w_empty)
              = Some ((-1, name, -1), w1))
    by (eexists _, _; vm_compute; reflexivity).
  destruct Hncf as (name & w1 & Hncf).
  destruct (replace_open_without_file Sample.cache_path Sample.path
              (mk_info O_WRONLY 0) (set_tmp_supply [] Sample.w_empty) _ _ _
              eq_refl eq_refl Hncf)
    as (w' & tried & Hopen & Hheap & Hst & _).
  exists w'. split; [exact Hopen|]. split; [exact Hheap | exact Hst].
Defined.

(** ** The name of a new cache file *)

Lemma string_app_length (s1 s2 : string) :
  String.length (s1 +:+ s2) = (String.length s1 + String.length s2)%nat.
Proof.
  induction s1 as [|c s1 IH]; [done|].
  change (S (String.length (s1 +:+ s2))
          = S (String.length s1 + String.length s2)).
  by rewrite IH.
Qed.

Lemma string_app_assoc (s1 s2 s3 : string) :
  (s1 +:+ s2) +:+ s3 = s1 +:+ (s2 +:+ s3).
Proof.
  induction s1 as [|c s1 IH]; [done|].
  change (String c ((s1 +:+ s2) +:+ s3) = String c (s1 +:+ (s2 +:+ s3))).
  by rewrite IH.
Qed.

Lemma substring_whole (n : nat) (s : string) :
  (String.length s <= n)%nat -> substring 0 n s = s.
Proof.
  revert n. induction s as [|c s IH]; intros [|n] Hn; simpl in *;
    try done; try lia.
  rewrite IH; [done | lia].
Qed.

Lemma substring_app_l (s1 s2 : string) :
  substring 0 (String.length s1) (s1 +:+ s2) = s1.
Proof.
  induction s1 as [|c s1 IH]; [by destruct s2|].
  change (String c (substring 0 (String.length s1) (s1 +:+ s2)) = String c s1).
  by rewrite IH.
Qed.

Lemma substring_app_r (s1 s2 : string) (m : nat) :
  substring (String.length s1) m (s1 +:+ s2) = substring 0 m s2.
Proof. induction s1 as [|c s1 IH]; [done|]. exact IH. Qed.

(** A pattern that ends in XXXXXX is a template, and the generated name
    is the pattern with the six X replaced. *)
Lemma is_template_app (p : string) : is_template (p +:+ "XXXXXX") = true.
Proof.
  unfold is_template. apply bool_decide_eq_true_2.
  rewrite string_app_length.
  replace (String.length p + String.length "XXXXXX" - 6)%nat
    with (String.length p) by (simpl; lia).
  by rewrite substring_app_r.
Qed.

Lemma template_prefix (p : string) :
  substring 0 (String.length (p +:+ "XXXXXX") - 6) (p +:+ "XXXXXX") = p.
Proof.
  rewrite string_app_length.
  replace (String.length p + String.length "XXXXXX" - 6)%nat
    with (String.length p) by (simpl; lia).
  apply substring_app_l.
Qed.

(** X21: the name of a new cache file.  When the cache path is short
    enough for the pattern to fit in PATH_MAX - 1 characters (27 are
    added to it), mkstemp has a suffix to offer and no file has the
    resulting name, [new_cache_file] returns 0 with the name
    cache_path/files/fusedav-cache-suffix; the file is new and empty, and
    the descriptor is new, open for reading and writing at offset 0.
    Files and descriptors that were there are untouched. *)
Theorem new_cache_file_name cache_path w sfx rest :
  (String.length cache_path + 27 <= PATH_MAX - 1)%nat ->
  tmp_supply w = sfx :: rest ->
  dir (fs w) !! (cache_path +:+ "/files/fusedav-cache-" +:+ sfx) = None ->
  exists w1 ino fd,
    new_cache_file cache_path w
      = Some ((0, cache_path +:+ "/files/fusedav-cache-" +:+ sfx, fd), w1) /\
    0 <= fd /\
    fdtab (fs w) !! fd = None /\
    inodes (fs w) !! ino = None /\
    tmp_supply w1 = rest /\
    dir (fs w1) =
      <[cache_path +:+ "/files/fusedav-cache-" +:+ sfx := ino]> (dir (fs w)) /\
    inodes (fs w1) = <[ino := []]> (inodes (fs w)) /\
    fdtab (fs w1) = <[fd := mk_ofd ino 0 true true]> (fdtab (fs w)) /\
    trace w1 = trace w ++
      [EvMkstemp (cache_path +:+ "/files/fusedav-cache-" +:+ sfx) fd].
Proof.
  intros Hlen Hsupply Hfree.
  rewrite <- (string_app_assoc cache_path "/files/fusedav-cache-" sfx) in *.
  unfold new_cache_file.
  rewrite substring_whole
    by (rewrite string_app_length;
        change (String.length "/files/fusedav-cache-XXXXXX") with 27%nat; lia).
  change "/files/fusedav-cache-XXXXXX"
    with ("/files/fusedav-cache-" +:+ "XXXXXX").
  rewrite <- string_app_assoc.
  set (p := cache_path +:+ "/files/fusedav-cache-") in *.
  assert (Hmk : mkstemp (p +:+ "XXXXXX") w =
            Some ((lowest_free 0 (fdtab (fs w)), p +:+ sfx),
                  set_trace (trace w ++
                      [EvMkstemp (p +:+ sfx) (lowest_free 0 (fdtab (fs w)))])
                    (set_fs (mk_fs (<[p +:+ sfx := lowest_free 1 (inodes (fs w))]>
                                      (dir (fs w)))
                               (<[lowest_free 1 (inodes (fs w)) := []]>
                                  (inodes (fs w)))
                               (<[lowest_free 0 (fdtab (fs w)) :=
                                    mk_ofd (lowest_free 1 (inodes (fs w)))
                                      0 true true]> (fdtab (fs w))))
                       (set_tmp_supply rest w)))).
  { unfold mkstemp. rewrite is_template_app, template_prefix. cbn [negb].
    unfold_monad. cbv beta. rewrite Hsupply.
    rewrite (mkstemp_attempts_first p (dir (fs w)) sfx rest _ Hfree).
    reflexivity. }
  rewrite (bind_run _ _ _ _ _ Hmk).
  pose proof (lowest_free_ge 0 (fdtab (fs w))) as Hge.
  destruct (Z.ltb_spec (lowest_free 0 (fdtab (fs w))) 0); [lia|].
  eexists _, (lowest_free 1 (inodes (fs w))), _.
  split; [reflexivity|]. simpl.
  split_and!; try done; apply lowest_free_None.
Qed.

Lemma new_cache_file_name_witness :
  exists w1,
    new_cache_file Sample.cache_path Sample.w_empty
      = Some ((0, "/cache/files/fusedav-cache-new111", 3), w1) /\
    tmp_supply w1 = ["new222"].
Proof.
  destruct (new_cache_file_name Sample.cache_path Sample.w_empty
              "new111" ["new222"])
    as (w1 & ino & fd & Hrun & _ & Hfd & _ & Hsup & _);
    [vm_compute; lia | reflexivity | reflexivity |].
  assert (fd = 3) as ->.
  { assert (Hrun' : exists name w1',
              new_cache_file Sample.cache_path Sample.w_empty
                = Some ((0, name, 3), w1'))
      by (eexists _, _; vm_compute; reflexivity).
    destruct Hrun' as (name & w1' & Hrun'). congruence. }
  exists w1. split; [exact Hrun | exact Hsup].
Defined.

(** ** Retries *)

(** X22: retries are transparent.  When the entry of a path, if there is
    one, is not fresh (its age, as the code computes it in 64 bits, is
    more than REFRESH_INTERVAL) and the first answers of the server have a status
    that is neither 200 nor 304 and end with the request to retry, the
    resolver sends the request once for each of them and then goes on
    with the remaining answers as if they had been the only ones: same
    entry, same store, same files, same supply of names. *)
Theorem retries_are_transparent cache_path path w retries answers :
  (forall pd, db_get_err (env w) = None -> db w !! path2key path = Some pd ->
     REFRESH_INTERVAL < time_t_sub (clock (env w)) (pd_last_server_update pd)) ->
  request_ok (env w) = true ->
  responses w = retries ++ answers ->
  Forall (fun r => r_begin r = NE_OK /\ r_code r <> 200 /\ r_code r <> 304 /\
                   r_end r = NE_RETRY) retries ->
  exists w0 pdata,
    ldb_get_fresh_fd cache_path path w
      = request_loop answers cache_path path pdata w0 /\
    pdata = match db_get_err (env w) with
            | Some _ => None
            | None => db w !! path2key path
            end /\
    env w0 = env w /\ fs w0 = fs w /\ db w0 = db w /\ heap w0 = heap w /\
    statcache w0 = statcache w /\ tmp_supply w0 = tmp_supply w /\
    (retries <> [] -> responses w0 = answers) /\
    trace w0 = trace w ++
      EvDbGet (path2key path)
        :: replicate (length retries) (EvHttpGet path (pd_etag <$> pdata)).
Proof.
  intros Hstale Hreq Hresp Hretries.
  rewrite (ldb_get_fresh_fd_not_fresh _ _ _ Hstale), Hreq.
  set (pdata := match db_get_err (env w) with
                | Some _ => None | None => db w !! path2key path end).
  cbn [responses set_trace]. rewrite Hresp.
  assert (Hloop : forall w1,
            exists w0,
              request_loop (retries ++ answers) cache_path path pdata w1
                = request_loop answers cache_path path pdata w0 /\
              env w0 = env w1 /\ fs w0 = fs w1 /\ db w0 = db w1 /\
              heap w0 = heap w1 /\ statcache w0 = statcache w1 /\
              tmp_supply w0 = tmp_supply w1 /\
              (retries = [] -> responses w0 = responses w1) /\
              (retries <> [] -> responses w0 = answers) /\
              trace w0 = trace w1 ++
                replicate (length retries) (EvHttpGet path (pd_etag <$> pdata))).
  { clear Hresp. induction Hretries as [|r rest (Hb & H200 & H304 & He) _ IH];
      intros w1.
    - exists w1. simpl. split_and!; try done. by rewrite app_nil_r.
    - cbn [app request_loop].
      unfold modify at 1, emit at 1, modify at 1.
      unfold mbind at 1 2, M_bind.
      set (w2 := set_trace _ (set_responses _ _)).
      rewrite Hb, He.
      change (negb (NE_OK =? NE_OK)) with false.
      change (NE_RETRY =? NE_RETRY) with true. cbv iota.
      destruct (Z.eqb_spec (r_code r) 304) as [|_]; [done|].
      destruct (Z.eqb_spec (r_code r) 200) as [|_]; [done|].
      destruct (IH w2) as (w0 & Hrun & He0 & Hfs0 & Hdb0 & Hh0 & Hst0 & Htmp0
                           & Hnil0 & Hrs0 & Htr0).
      exists w0. split; [exact Hrun|].
      rewrite He0, Hfs0, Hdb0, Hh0, Hst0, Htmp0, Htr0.
      split_and!; try done.
      + intros _. destruct rest as [|r' rest'].
        * by rewrite Hnil0.
        * by apply Hrs0.
      + subst w2. simpl. by rewrite <- app_assoc. }
  destruct (Hloop (set_trace (trace w ++ [EvDbGet (path2key path)]) w))
    as (w0 & Hrun & He0 & Hfs0 & Hdb0 & Hh0 & Hst0 & Htmp0 & _ & Hrs0 & Htr0).
  exists w0, pdata. split; [exact Hrun|].
  split_and!; try done.
  rewrite Htr0. simpl. by rewrite <- app_assoc.
Qed.

Lemma retries_are_transparent_witness :
  let w := Sample.w_cached Sample.env_ok 0
             [Sample.busy_retry; Sample.busy_retry; Sample.not_modified] in
  exists w0,
    ldb_get_fresh_fd Sample.cache_path Sample.path w
      = request_loop [Sample.not_modified] Sample.cache_path Sample.path
          (Some (mk_pdata Sample.old_name "v1" 0)) w0 /\
    responses w0 = [Sample.not_modified] /\
    trace w0 =
      [EvDbGet (path2key Sample.path);
       EvHttpGet Sample.path (Some "v1"); EvHttpGet Sample.path (Some "v1")].
Proof.
  destruct (retries_are_transparent Sample.cache_path Sample.path
              (Sample.w_cached Sample.env_ok 0
                 [Sample.busy_retry; Sample.busy_retry; Sample.not_modified])
              [Sample.busy_retry; Sample.busy_retry] [Sample.not_modified])
    as (w0 & pdata & Hrun & -> & _ & _ & _ & _ & _ & _ & Hrs & Htr).
  - intros pd _ Hpd. vm_compute in Hpd. injection Hpd as <-. vm_compute.
    reflexivity.
  - reflexivity.
  - reflexivity.
  - constructor; [repeat split; discriminate|].
    constructor; [repeat split; discriminate|]. constructor.
  - exists w0. split; [exact Hrun|]. split; [by apply Hrs | exact Htr].
Defined.

(** X23: create and release.  A replace-open that gets its new file with
    a descriptor above 0, released at once without any write, with the
    flags of the open asking for writing, a session at hand and a server
    that accepts the upload: the release uploads the empty file, because
    the session was marked modified by the open, publishes size 0 again
    and closes the descriptor. *)
Theorem create_and_release_uploads_empty_file
    cache_path path info w name fd w1 :
  session_ok (env w) = true ->
  malloc_ok (env w) = true ->
  put_ok (env w) = true ->
  writable_requested (flags info) = true ->
  new_cache_file cache_path w = Some ((0, name, fd), w1) ->
  0 < fd ->
  exists info' w2 w3,
    ldb_filecache_open cache_path path info true w = Some ((0, info'), w2) /\
    ldb_filecache_release path info' w2 = Some (0, w3) /\
    trace w3 = trace w ++
      [EvMkstemp name fd;
       EvStatSet path (synthetic_stat 0 (clock (env w)) (env w));
       EvLseek fd;
       EvHttpPut path [];
       EvLseek fd;
       EvStatSet path (synthetic_stat 0 (clock (env w)) (env w));
       EvClose fd] /\
    fdtab (fs w3) !! fd = None /\
    db w3 = db w.
Proof.
  intros Hs Hm Hp Hwr Hncf Hfd.
  destruct (replace_open_run cache_path path info _ _ _ _ Hs Hm Hncf Hfd)
    as (w2 & Hopen & He2 & Hfs2 & Hdb2 & Hst2 & Htr2 & Hheap2).
  destruct (new_cache_file_created_fs _ _ _ _ _ Hncf)
    as (ino & Hfree & Hfs1 & _ & _).
  set (a := lowest_free 1 (heap w)) in *.
  set (sd := mk_sdata fd name (readable_requested (flags info))
               (writable_requested (flags info)) true) in *.
  set (info' := mk_info (flags info) a).
  assert (Hfd2 : fdtab (fs w2) !! sd_fd sd = Some (mk_ofd ino 0 true true)).
  { rewrite Hfs2, Hfs1. simpl. by rewrite lookup_insert_eq. }
  assert (Hino2 : inodes (fs w2) !! ino = Some []).
  { rewrite Hfs2, Hfs1. simpl. by rewrite lookup_insert_eq. }
  assert (Hs2 : session_ok (env w2) = true) by (by rewrite He2).
  assert (Hp2 : put_ok (env w2) = true) by (by rewrite He2).
  pose proof (ldb_filecache_sync_run path info' w2 sd _ Hheap2 Hwr eq_refl
                Hfd2 Hs2 Hp2) as Hsync.
  simpl in Hsync. rewrite Hino2 in Hsync. simpl in Hsync.
  set (w2' := set_statcache _ _) in Hsync.
  assert (Hheap2' : heap w2' !! fh info' = Some sd) by done.
  assert (Hfd2' : fdtab (fs w2') !! sd_fd sd = Some (mk_ofd ino 0 true true)).
  { subst w2'. simpl. by rewrite lookup_insert_eq. }
  pose proof (ldb_filecache_close_run (fh info') w2' sd _ Hheap2' Hfd2'
                ltac:(simpl; lia)) as Hclose.
  eexists info', w2, _. split_and!.
  - exact Hopen.
  - rewrite (release_sync_done path info' w2 sd 0 _ Hheap2 Hsync) by lia.
    rewrite (bind_run _ _ _ _ _ Hclose). reflexivity.
  - simpl. rewrite Htr2, He2. by rewrite <- !app_assoc.
  - simpl. by rewrite lookup_delete_eq.
  - simpl. done.
Qed.

Lemma create_and_release_uploads_empty_file_witness :
  exists info' w2 w3,
    ldb_filecache_open Sample.cache_path Sample.path (mk_info O_WRONLY 0) true
      Sample.w_empty = Some ((0, info'), w2) /\
    ldb_filecache_release Sample.path info' w2 = Some (0, w3) /\
    fdtab (fs w3) !! 3 = None.
Proof.
  assert (Hncf : exists w1,
            new_cache_file Sample.cache_path Sample.w_empty
              = Some ((0, Sample.new_name, 3), w1))
    by (eexists; vm_compute; reflexivity).
  destruct Hncf as [w1 Hncf].
  destruct (create_and_release_uploads_empty_file Sample.cache_path
              Sample.path (mk_info O_WRONLY 0) Sample.w_empty
              Sample.new_name 3 w1)
    as (info' & w2 & w3 & Hopen & Hrel & _ & Hfd & _);
    [reflexivity | reflexivity | reflexivity | reflexivity | exact Hncf | lia |].
  exists info', w2, w3. split; [exact Hopen|]. split; [exact Hrel | exact Hfd].
Defined.
